(** * Mentor-student API: a shallow embedding of the Express handlers

    The service is a set of Express route handlers over two Mongoose models,
    [Mentor] and [Student].  Each handler is an [async] function whose body is
    one [try]/[catch]; it reads and writes the two collections and answers
    with [res.status(..).send(..)].

    The embedding follows that shape:
    - a collection is a finite map from [_id] to the remaining fields (the
      unique [_id] index of a MongoDB collection);
    - a handler is a computation in a state-and-exception monad over the
      store; an exception leaves the writes made so far in place, as the
      source has no rollback;
    - a response is a status code and a body.

    The repository holds two revisions of [index.js].  Their handlers are
    the same statement for statement; they differ in the body of the 500
    answers and in the [_id] of a new document.  One revision leaves [_id]
    to Mongoose, which generates an ObjectId.  The other declares
    [_id] with [default: mongoose.Types.ObjectId]; Mongoose calls a
    function default as a plain function, the call fails, and a document
    built from a body without [_id] has no id and is refused by [save].
    A create request therefore carries what the [_id] default yields for
    its document, see [id_default].  The 500 bodies follow the revision
    with the explicit default.

    What Mongoose does with a string where the schema wants an [ObjectId]
    (route parameters, fields of a request body) is kept abstract in the
    class [ObjectIdCast]: a string either denotes an identifier or the cast
    is rejected.  The store itself is taken to be reachable, so the only
    exceptions are rejected casts and duplicate keys. *)

From Stdlib Require Import NArith Ascii String.
From stdpp Require Import gmap strings list fin_maps.

(** ** Identifiers *)

(** A BSON ObjectId is a 96-bit value. *)
Definition ObjectId : Type := N.
Bind Scope N_scope with ObjectId.

(** The cast Mongoose applies to a string where an ObjectId is expected;
    [None] is the [CastError] case. *)
Class ObjectIdCast := castObjectId : string → option ObjectId.

(** The literal form of an ObjectId: exactly 24 hexadecimal digits. *)
Definition hex_digit (c : ascii) : option N :=
  let n := N_of_ascii c in
  if (48 <=? n)%N && (n <=? 57)%N then Some (n - 48)%N
  else if (97 <=? n)%N && (n <=? 102)%N then Some (n - 87)%N
  else if (65 <=? n)%N && (n <=? 70)%N then Some (n - 55)%N
  else None.

Fixpoint hex_value (acc : N) (s : string) : option N :=
  match s with
  | EmptyString => Some acc
  | String c rest =>
      match hex_digit c with
      | Some d => hex_value (16 * acc + d)%N rest
      | None => None
      end
  end.

Definition hex24 (s : string) : option ObjectId :=
  if Nat.eqb (String.length s) 24 then hex_value 0 s else None.

(** ** Documents *)

Module Mentor.
(** [mentorSchema]: [name: String], [students: [ObjectId ref Student]]. *)
Record fields := Fields {
  name : option string;
  students : list ObjectId
}.
(** A document: its [_id] and the schema fields. *)
Record doc := Doc { _id : ObjectId; data : fields }.

(** [mentor.students.push(id)] *)
Definition push_students (id : ObjectId) (m : doc) : doc :=
  Doc (_id m) (Fields (name (data m)) (students (data m) ++ [id])).
End Mentor.
Coercion Mentor.data : Mentor.doc >-> Mentor.fields.

Module Student.
(** [studentSchema]: [name], [mentor], [previousMentor]. *)
Record fields := Fields {
  name : option string;
  mentor : option ObjectId;
  previousMentor : option ObjectId
}.
Record doc := Doc { _id : ObjectId; data : fields }.

(** [student.mentor = v] *)
Definition set_mentor (v : option ObjectId) (s : doc) : doc :=
  Doc (_id s) (Fields (name (data s)) v (previousMentor (data s))).

(** [student.previousMentor = v] *)
Definition set_previousMentor (v : option ObjectId) (s : doc) : doc :=
  Doc (_id s) (Fields (name (data s)) (mentor (data s)) v).
End Student.
Coercion Student.data : Student.doc >-> Student.fields.

(** ** The store *)

Record Store := MkStore {
  mentors : gmap ObjectId Mentor.fields;
  students : gmap ObjectId Student.fields
}.

Definition empty_store : Store := MkStore ∅ ∅.

(** ** Responses *)

Inductive Body :=
  | BHtml
  | BText (text : string)
  | BEmpty
  | BMentor (d : Mentor.doc)
  | BStudent (d : Student.doc)
  | BMentors (l : list Mentor.doc)
  | BStudents (l : list Student.doc)
  | BError (error details : string).

Record Response := Send { status : nat; body : Body }.

(** ** Asynchronous handlers: state and exceptions *)

Inductive Outcome (A : Type) :=
  | Returned (a : A)
  | Thrown (message : string).
Arguments Returned {A} a.
Arguments Thrown {A} message.

Definition Async (A : Type) : Type := Store → Store * Outcome A.

Definition ret {A} (a : A) : Async A := λ st, (st, Returned a).

Definition throw {A} (message : string) : Async A := λ st, (st, Thrown message).

Definition bind {A B} (c : Async A) (k : A → Async B) : Async B :=
  λ st,
    match c st with
    | (st', Returned a) => k a st'
    | (st', Thrown e) => (st', Thrown e)
    end.

Definition get_store : Async Store := λ st, (st, Returned st).

Definition modify_store (f : Store → Store) : Async unit :=
  λ st, (f st, Returned tt).

(** [try { body } catch (error) { handler }] *)
Definition try_catch {A} (body : Async A) (handler : string → Async A) : Async A :=
  λ st,
    match body st with
    | (st', Returned a) => (st', Returned a)
    | (st', Thrown e) => handler e st'
    end.

Declare Scope async_scope.
Delimit Scope async_scope with async.
Notation "x <- c1 ;; c2" := (bind c1 (λ x, c2))
  (at level 100, c1 at next level, right associativity) : async_scope.
Notation "c1 ;; c2" := (bind c1 (λ _, c2))
  (at level 100, right associativity) : async_scope.
Local Open Scope async_scope.

(** A handler that finished: its final store and what it sent.  A handler
    always ends in [res.send], so the exception case does not arise once
    [try_catch] has run; it is mapped to a bare 500 to keep the function
    total. *)
Definition respond (c : Async Response) (st : Store) : Store * Response :=
  match c st with
  | (st', Returned r) => (st', r)
  | (st', Thrown e) => (st', Send 500 (BError "" e))
  end.

(** ** Request bodies *)

(** The part of a JSON body the schemas look at.  Identifiers arrive as
    strings and are cast by the model constructor. *)
Record MentorBody := {
  mb_id : option string;
  mb_name : option string;
  mb_students : option (list string)
}.

Record StudentBody := {
  sb_id : option string;
  sb_name : option string;
  sb_mentor : option string;
  sb_previousMentor : option string
}.

(** ** The [_id] default of the two revisions *)



Section Handlers.
Context `{!ObjectIdCast}.

(** *** Model operations *)

(** An optional ObjectId path of a body: absent stays absent, a present
    value is cast. *)
Definition cast_path (v : option string) : option (option ObjectId) :=
  match v with
  | None => Some None
  | Some s => Some <$> castObjectId s
  end.

(** [new Mentor(req.body)]: body fields are merged onto the schema defaults
    ([_id] what the default yields, [gen]; [students] empty).  [None] stands
    for a document that [save] rejects: one that carries a cast error, or
    one without an [_id]. *)
Definition Mentor_new (gen : option ObjectId) (b : MentorBody) : option Mentor.doc :=
  id ← from_option castObjectId gen (mb_id b);
  studs ← from_option (mapM castObjectId) (Some []) (mb_students b);
  Some (Mentor.Doc id (Mentor.Fields (mb_name b) studs)).

(** [new Student(req.body)] *)
Definition Student_new (gen : option ObjectId) (b : StudentBody) : option Student.doc :=
  id ← from_option castObjectId gen (sb_id b);
  m ← cast_path (sb_mentor b);
  p ← cast_path (sb_previousMentor b);
  Some (Student.Doc id (Student.Fields (sb_name b) m p)).

(** [doc.save()] on a new document: an insert, refused on a duplicate
    [_id]. *)
Definition Mentor_insert (d : Mentor.doc) : Async unit :=
  st <- get_store ;;
  match mentors st !! Mentor._id d with
  | Some _ => throw "E11000 duplicate key error"
  | None =>
      modify_store (λ st,
        MkStore (<[Mentor._id d := Mentor.data d]> (mentors st)) (students st))
  end.

Definition Student_insert (d : Student.doc) : Async unit :=
  st <- get_store ;;
  match students st !! Student._id d with
  | Some _ => throw "E11000 duplicate key error"
  | None =>
      modify_store (λ st,
        MkStore (mentors st) (<[Student._id d := Student.data d]> (students st)))
  end.

(** [doc.save()] on a document obtained from [findById]: an update of the
    document with that [_id]. *)
Definition Mentor_save (d : Mentor.doc) : Async unit :=
  modify_store (λ st,
    MkStore (<[Mentor._id d := Mentor.data d]> (mentors st)) (students st)).

Definition Student_save (d : Student.doc) : Async unit :=
  modify_store (λ st,
    MkStore (mentors st) (<[Student._id d := Student.data d]> (students st))).

(** [Model.findById(id)]: the id is cast first; a rejected cast rejects the
    query, otherwise the answer is the document or [null]. *)
Definition Mentor_findById (id : string) : Async (option Mentor.doc) :=
  match castObjectId id with
  | None => throw "Cast to ObjectId failed"
  | Some oid => st <- get_store ;; ret (Mentor.Doc oid <$> mentors st !! oid)
  end.

Definition Student_findById (id : string) : Async (option Student.doc) :=
  match castObjectId id with
  | None => throw "Cast to ObjectId failed"
  | Some oid => st <- get_store ;; ret (Student.Doc oid <$> students st !! oid)
  end.

(** [Model.find()] *)
Definition Mentor_find : Async (list Mentor.doc) :=
  st <- get_store ;;
  ret ((λ kv, Mentor.Doc kv.1 kv.2) <$> map_to_list (mentors st)).

Definition Student_find : Async (list Student.doc) :=
  st <- get_store ;;
  ret ((λ kv, Student.Doc kv.1 kv.2) <$> map_to_list (students st)).

(** [.populate('students')]: every id of the array is replaced by the
    Student document it references; ids without a document drop out. *)
Definition populate_students (st : Store) (ids : list ObjectId) : list Student.doc :=
  omap (λ i, Student.Doc i <$> students st !! i) ids.

(** [.populate('previousMentor')] *)
Definition populate_previousMentor (st : Store) (ref : option ObjectId)
  : option Mentor.doc :=
  i ← ref; Mentor.Doc i <$> mentors st !! i.

(** [Mentor.findById(id).populate('students')]: the mentor together with
    its populated array. *)
Definition Mentor_findById_populate (id : string)
  : Async (option (Mentor.doc * list Student.doc)) :=
  mentor <- Mentor_findById id ;;
  st <- get_store ;;
  ret (match mentor with
       | Some m => Some (m, populate_students st (Mentor.students m))
       | None => None
       end).

(** [Student.findById(id).populate('previousMentor')] *)
Definition Student_findById_populate (id : string)
  : Async (option (Student.doc * option Mentor.doc)) :=
  student <- Student_findById id ;;
  st <- get_store ;;
  ret (match student with
       | Some s => Some (s, populate_previousMentor st (Student.previousMentor s))
       | None => None
       end).

(** JavaScript truthiness of an optional ObjectId: an ObjectId is an
    object, hence truthy; [undefined] is not. *)
Definition truthy (v : option ObjectId) : bool :=
  match v with Some _ => true | None => false end.

(** *** Route handlers *)

(** [GET /] *)
Definition getRoot : Async Response := ret (Send 200 BHtml).

(** [GET /mentors] *)
Definition listMentors : Async Response :=
  try_catch
    (mentors <- Mentor_find ;;
     ret (Send 200 (BMentors mentors)))
    (λ error, ret (Send 500 (BError "Error fetching mentors" error))).

(** [GET /students] *)
Definition listStudents : Async Response :=
  try_catch
    (students <- Student_find ;;
     ret (Send 200 (BStudents students)))
    (λ error, ret (Send 500 (BError "Error fetching students" error))).

(** [POST /mentors] *)
Definition createMentor (gen : option ObjectId) (body : MentorBody) : Async Response :=
  try_catch
    (match Mentor_new gen body with
     | None => throw "Mentor validation failed"
     | Some mentor =>
         Mentor_insert mentor ;;
         ret (Send 201 (BMentor mentor))
     end)
    (λ error, ret (Send 500 (BError "Error creating mentor" error))).

(** [POST /students] *)
Definition createStudent (gen : option ObjectId) (body : StudentBody) : Async Response :=
  try_catch
    (match Student_new gen body with
     | None => throw "Student validation failed"
     | Some student =>
         Student_insert student ;;
         ret (Send 201 (BStudent student))
     end)
    (λ error, ret (Send 500 (BError "Error creating student" error))).

(** [POST /mentors/:mentorId/students/:studentId] *)
Definition assignStudentToMentor (mentorId studentId : string) : Async Response :=
  try_catch
    (mentor <- Mentor_findById mentorId ;;
     student <- Student_findById studentId ;;
     match mentor, student with
     | Some mentor, Some student =>
         if truthy (Student.mentor student) then
           ret (Send 400 (BText "Student already has a mentor"))
         else
           let student := Student.set_mentor (Some (Mentor._id mentor)) student in
           Student_save student ;;
           let mentor := Mentor.push_students (Student._id student) mentor in
           Mentor_save mentor ;;
           ret (Send 200 (BMentor mentor))
     | _, _ => ret (Send 404 (BText "Mentor or Student not found"))
     end)
    (λ error, ret (Send 500 (BError "Error assigning student to mentor" error))).

(** [PUT /students/:studentId/mentor/:mentorId] *)
Definition reassignStudentMentor (studentId mentorId : string) : Async Response :=
  try_catch
    (student <- Student_findById studentId ;;
     newMentor <- Mentor_findById mentorId ;;
     match student, newMentor with
     | Some student, Some newMentor =>
         let student :=
           if truthy (Student.mentor student)
           then Student.set_previousMentor (Student.mentor student) student
           else student in
         let student := Student.set_mentor (Some (Mentor._id newMentor)) student in
         Student_save student ;;
         let newMentor := Mentor.push_students (Student._id student) newMentor in
         Mentor_save newMentor ;;
         ret (Send 200 (BStudent student))
     | _, _ => ret (Send 404 (BText "Student or Mentor not found"))
     end)
    (λ error, ret (Send 500 (BError "Error updating student mentor" error))).

(** [GET /mentors/:mentorId/students] *)
Definition getMentorStudents (mentorId : string) : Async Response :=
  try_catch
    (mentor <- Mentor_findById_populate mentorId ;;
     match mentor with
     | None => ret (Send 404 (BText "Mentor not found"))
     | Some (_, students) => ret (Send 200 (BStudents students))
     end)
    (λ error, ret (Send 500 (BError "Error fetching students for mentor" error))).

(** [GET /students/:studentId/previous-mentor]; [res.send] of [undefined]
    or [null] sends an empty body. *)
Definition getPreviousMentor (studentId : string) : Async Response :=
  try_catch
    (student <- Student_findById_populate studentId ;;
     match student with
     | None => ret (Send 404 (BText "Student not found"))
     | Some (_, Some previousMentor) => ret (Send 200 (BMentor previousMentor))
     | Some (_, None) => ret (Send 200 BEmpty)
     end)
    (λ error, ret (Send 500 (BError "Error fetching previous mentor for student" error))).

(** *** The application *)

(** A request as a handler receives it.  A create carries, beside its
    body, what the [_id] default of the schema yields for the new
    document ([gen], see [id_default]). *)
Inductive Request :=
  | GetRoot
  | GetMentors
  | GetStudents
  | PostMentor (gen : option ObjectId) (body : MentorBody)
  | PostStudent (gen : option ObjectId) (body : StudentBody)
  | PostAssign (mentorId studentId : string)
  | PutReassign (studentId mentorId : string)
  | GetMentorStudents (mentorId : string)
  | GetPreviousMentor (studentId : string).

Definition route (req : Request) : Async Response :=
  match req with
  | GetRoot => getRoot
  | GetMentors => listMentors
  | GetStudents => listStudents
  | PostMentor gen body => createMentor gen body
  | PostStudent gen body => createStudent gen body
  | PostAssign mentorId studentId => assignStudentToMentor mentorId studentId
  | PutReassign studentId mentorId => reassignStudentMentor studentId mentorId
  | GetMentorStudents mentorId => getMentorStudents mentorId
  | GetPreviousMentor studentId => getPreviousMentor studentId
  end.

Definition handle (req : Request) (st : Store) : Store * Response :=
  respond (route req) st.

(** The store after a sequence of requests served one after the other. *)
Definition serve (reqs : list Request) (st : Store) : Store :=
  foldl (λ st req, (handle req st).1) st reqs.

(** *** Vocabulary of the specification *)

(** What [findById] makes of a route parameter. *)
Inductive Lookup := Malformed | Missing | Found.

Definition lookup_in {A} (coll : gmap ObjectId A) (id : string) : Lookup :=
  match castObjectId id with
  | None => Malformed
  | Some oid => match coll !! oid with Some _ => Found | None => Missing end
  end.

(** The lookups a request performs for the ids in its path. *)
Definition referenced (st : Store) (req : Request) : list Lookup :=
  match req with
  | PostAssign mentorId studentId =>
      [lookup_in (mentors st) mentorId; lookup_in (students st) studentId]
  | PutReassign studentId mentorId =>
      [lookup_in (students st) studentId; lookup_in (mentors st) mentorId]
  | GetMentorStudents mentorId => [lookup_in (mentors st) mentorId]
  | GetPreviousMentor studentId => [lookup_in (students st) studentId]
  | _ => []
  end.

(** Whether a request is a reassignment of the student [sid]. *)
Definition reassigns (sid : ObjectId) (req : Request) : bool :=
  match req with
  | PutReassign studentId _ => bool_decide (castObjectId studentId = Some sid)
  | _ => false
  end.

Definition is_malformed (l : Lookup) : bool :=
  match l with Malformed => true | _ => false end.

Definition is_found (l : Lookup) : bool :=
  match l with Found => true | _ => false end.

End Handlers.

(** The bidirectional invariant of the data model, for one mentor: every
    id on the roster names an existing student whose [mentor] is this
    mentor. *)
Definition student_of (st : Store) (mid sid : ObjectId) : bool :=
  match students st !! sid with
  | Some sf => bool_decide (Student.mentor sf = Some mid)
  | None => false
  end.

Definition mentor_consistent (st : Store) (mid : ObjectId) : bool :=
  match mentors st !! mid with
  | Some mf => forallb (student_of st mid) (Mentor.students mf)
  | None => true
  end.

(** ** Stores the relationship handlers produce *)

(** [mentor.students.push(sid)] on the stored fields. *)
Definition enrolled (sid : ObjectId) (mf : Mentor.fields) : Mentor.fields :=
  Mentor.Fields (Mentor.name mf) (Mentor.students mf ++ [sid]).

(** [student.mentor = mid] on the stored fields of an unassigned student. *)
Definition mentored (mid : ObjectId) (sf : Student.fields) : Student.fields :=
  Student.Fields (Student.name sf) (Some mid) (Student.previousMentor sf).

(** The fields of a student after a reassignment to [mid]: the current
    mentor, if any, moves to [previousMentor]. *)
Definition rementored (mid : ObjectId) (sf : Student.fields) : Student.fields :=
  Student.Fields (Student.name sf) (Some mid)
    (match Student.mentor sf with
     | Some old => Some old
     | None => Student.previousMentor sf
     end).

(** The store after both writes of an assignment or reassignment. *)
Definition linked (st : Store) (mid sid : ObjectId)
    (mf : Mentor.fields) (sf : Student.fields) : Store :=
  MkStore (<[mid := enrolled sid mf]> (mentors st)) (<[sid := sf]> (students st)).

(** ** A worked scenario

    Identifiers are written in their 24-digit literal form and cast with
    [hex24]. *)
Definition literal_cast : ObjectIdCast := hex24.

Definition ada : string := "0000000000000000000000a1".
Definition grace : string := "0000000000000000000000a2".
Definition mary : string := "0000000000000000000000a3".
Definition lin : string := "000000000000000000000051".
Definition kim : string := "000000000000000000000052".
Definition joan : string := "0000000000000000000000a4".
Definition eve : string := "000000000000000000000053".



(** Bodies that carry the [_id] of the new document. *)
Definition mentor_with_id (id n : string) : MentorBody :=
  {| mb_id := Some id; mb_name := Some n; mb_students := None |}.

Definition student_with_id (id n : string) : StudentBody :=
  {| sb_id := Some id; sb_name := Some n; sb_mentor := None;
     sb_previousMentor := None |}.

(** Three mentors and two students, created through the API, nobody
    assigned yet.  The bodies carry their ids, so the creates succeed on
    either revision; [None] is what the explicit [_id] default yields. *)
Definition campus : Store :=
  @serve literal_cast
    [ PostMentor None (mentor_with_id ada "Ada");
      PostMentor None (mentor_with_id grace "Grace");
      PostMentor None (mentor_with_id mary "Mary");
      PostStudent None (student_with_id lin "Lin");
      PostStudent None (student_with_id kim "Kim") ]
    empty_store.

(** Lin has been assigned to Ada. *)
Definition lin_assigned : Store :=
  @serve literal_cast [PostAssign ada lin] campus.

(** Lin has then been reassigned from Ada to Grace. *)
Definition lin_reassigned : Store :=
  @serve literal_cast [PutReassign lin grace] lin_assigned.

(** A body that names a mentor and a previous mentor for the new student. *)
Definition eve_with_mentors : StudentBody :=
  {| sb_id := Some eve; sb_name := Some "Eve"; sb_mentor := Some ada;
     sb_previousMentor := Some grace |}.

(** ** The rest of the application

    Vocabulary for properties of the application as a whole. *)

(** The requests whose method is GET. *)
Definition is_get (req : Request) : bool :=
  match req with
  | GetRoot | GetMentors | GetStudents
  | GetMentorStudents _ | GetPreviousMentor _ => true
  | _ => false
  end.

Definition absent {A} (v : option A) : bool :=
  match v with None => true | Some _ => false end.

(** A request is plain when it is not a create whose body carries
    relationship fields. *)
Definition plain (req : Request) : bool :=
  match req with
  | PostMentor _ body => absent (mb_students body)
  | PostStudent _ body => absent (sb_mentor body) && absent (sb_previousMentor body)
  | _ => true
  end.


(** The requests that go to the PUT route. *)
Definition is_reassign (req : Request) : bool :=
  match req with PutReassign _ _ => true | _ => false end.

(** The references the handlers keep valid: a mentor a student points
    to, as [mentor] or as [previousMentor], exists and has the student on
    its roster; a roster entry names an existing student. *)
Definition well_linked (st : Store) : Prop :=
  (∀ sid sf m,
     students st !! sid = Some sf →
     Student.mentor sf = Some m ∨ Student.previousMentor sf = Some m →
     ∃ mf, mentors st !! m = Some mf ∧ sid ∈ Mentor.students mf)
  ∧ (∀ mid mf sid,
       mentors st !! mid = Some mf → sid ∈ Mentor.students mf →
       is_Some (students st !! sid)).

(** ** [generateId]

    [Math.random().toString(36).substr(2, 10).toUpperCase()].  The random
    draw and its base-36 rendering are the argument [rendering]: the string
    ["0"] for a draw of zero, otherwise ["0."] followed by digits among
    [0-9a-z]. *)

(** [String.prototype.toUpperCase] on the ASCII range. *)
Definition toUpperCase_char (c : ascii) : ascii :=
  let n := N_of_ascii c in
  if (97 <=? n)%N && (n <=? 122)%N then ascii_of_N (n - 32) else c.

Fixpoint toUpperCase (s : string) : string :=
  match s with
  | EmptyString => EmptyString
  | String c rest => String (toUpperCase_char c) (toUpperCase rest)
  end.

(** [s.substr(start, len)] for non-negative arguments: at most [len]
    characters from position [start], fewer when the string ends. *)
Definition substr (start len : nat) (s : string) : string :=
  String.substring start len s.

Definition generateId (rendering : string) : string :=
  toUpperCase (substr 2 10 rendering).

(** A base-36 digit as [toString(36)] writes it. *)
Definition is_base36 (c : ascii) : bool :=
  let n := N_of_ascii c in
  ((48 <=? n)%N && (n <=? 57)%N) || ((97 <=? n)%N && (n <=? 122)%N).

(** A digit or an upper-case letter. *)
Definition is_upper_alnum (c : ascii) : bool :=
  let n := N_of_ascii c in
  ((48 <=? n)%N && (n <=? 57)%N) || ((65 <=? n)%N && (n <=? 90)%N).

Fixpoint string_forallb (p : ascii → bool) (s : string) : bool :=
  match s with
  | EmptyString => true
  | String c rest => p c && string_forallb p rest
  end.

(** A body that carries an [_id] and a roster. *)
Definition mentor_with_roster (id n : string) (roster : list string) : MentorBody :=
  {| mb_id := Some id; mb_name := Some n; mb_students := Some roster |}.

(** [String.prototype.toLowerCase] on the ASCII range, to compare an id
    with the characters it was made from. *)
Definition toLowerCase_char (c : ascii) : ascii :=
  let n := N_of_ascii c in
  if (65 <=? n)%N && (n <=? 90)%N then ascii_of_N (n + 32) else c.

Fixpoint toLowerCase (s : string) : string :=
  match s with
  | EmptyString => EmptyString
  | String c rest => String (toLowerCase_char c) (toLowerCase rest)
  end.

(** The requests that lead from the empty store to [lin_reassigned]. *)
Definition history : list Request :=
  [ PostMentor None (mentor_with_id ada "Ada");
    PostMentor None (mentor_with_id grace "Grace");
    PostMentor None (mentor_with_id mary "Mary");
    PostStudent None (student_with_id lin "Lin");
    PostStudent None (student_with_id kim "Kim");
    PostAssign ada lin;
    PutReassign lin grace ].

(** The same start, with assignments only. *)
Definition assignments_only : list Request :=
  [ PostMentor None (mentor_with_id ada "Ada");
    PostStudent None (student_with_id lin "Lin");
    PostStudent None (student_with_id kim "Kim");
    PostAssign ada lin;
    GetMentorStudents ada;
    PostAssign ada kim;
    PostAssign ada lin ].

(** * Properties *)

Section Properties.
Context `{!ObjectIdCast}.

(** ** Equations of the model operations *)

Lemma Mentor_findById_cast id oid st :
  castObjectId id = Some oid →
  Mentor_findById id st = (st, Returned (Mentor.Doc oid <$> mentors st !! oid)).
Proof. intros Hc. unfold Mentor_findById. rewrite Hc. reflexivity. Qed.

Lemma Mentor_findById_rejects id st :
  castObjectId id = None →
  Mentor_findById id st = (st, Thrown "Cast to ObjectId failed").
Proof. intros Hc. unfold Mentor_findById. rewrite Hc. reflexivity. Qed.

Lemma Student_findById_cast id oid st :
  castObjectId id = Some oid →
  Student_findById id st = (st, Returned (Student.Doc oid <$> students st !! oid)).
Proof. intros Hc. unfold Student_findById. rewrite Hc. reflexivity. Qed.

Lemma Student_findById_rejects id st :
  castObjectId id = None →
  Student_findById id st = (st, Thrown "Cast to ObjectId failed").
Proof. intros Hc. unfold Student_findById. rewrite Hc. reflexivity. Qed.

(** ** What each relationship handler computes *)

Lemma assign_found st mentorId studentId mid sid mf sf :
  castObjectId mentorId = Some mid → mentors st !! mid = Some mf →
  castObjectId studentId = Some sid → students st !! sid = Some sf →
  respond (assignStudentToMentor mentorId studentId) st =
    if truthy (Student.mentor sf)
    then (st, Send 400 (BText "Student already has a mentor"))
    else (linked st mid sid mf (mentored mid sf),
          Send 200 (BMentor (Mentor.Doc mid (enrolled sid mf)))).
Proof.
  intros Hm Hmf Hs Hsf.
  unfold respond, assignStudentToMentor, try_catch, bind.
  rewrite (Mentor_findById_cast _ _ _ Hm), (Student_findById_cast _ _ _ Hs).
  rewrite Hmf, Hsf. cbn.
  destruct (Student.mentor sf); reflexivity.
Qed.

Lemma assign_missing st mentorId studentId mid sid :
  castObjectId mentorId = Some mid → castObjectId studentId = Some sid →
  mentors st !! mid = None ∨ students st !! sid = None →
  respond (assignStudentToMentor mentorId studentId) st =
    (st, Send 404 (BText "Mentor or Student not found")).
Proof.
  intros Hm Hs Hnone.
  unfold respond, assignStudentToMentor, try_catch, bind.
  rewrite (Mentor_findById_cast _ _ _ Hm), (Student_findById_cast _ _ _ Hs).
  destruct Hnone as [-> | ->]; cbn; [reflexivity |].
  destruct (mentors st !! mid); reflexivity.
Qed.

Lemma assign_malformed st mentorId studentId :
  castObjectId mentorId = None ∨ castObjectId studentId = None →
  ∃ details,
    respond (assignStudentToMentor mentorId studentId) st =
      (st, Send 500 (BError "Error assigning student to mentor" details)).
Proof.
  intros Hbad. eexists.
  unfold respond, assignStudentToMentor, try_catch, bind.
  destruct (castObjectId mentorId) as [mid |] eqn:Hm.
  - destruct Hbad as [Hbad | Hbad]; [discriminate |].
    rewrite (Mentor_findById_cast _ _ _ Hm), (Student_findById_rejects _ _ Hbad).
    reflexivity.
  - rewrite (Mentor_findById_rejects _ _ Hm). reflexivity.
Qed.

Lemma reassign_found st studentId mentorId sid mid sf mf :
  castObjectId studentId = Some sid → students st !! sid = Some sf →
  castObjectId mentorId = Some mid → mentors st !! mid = Some mf →
  respond (reassignStudentMentor studentId mentorId) st =
    (linked st mid sid mf (rementored mid sf),
     Send 200 (BStudent (Student.Doc sid (rementored mid sf)))).
Proof.
  intros Hs Hsf Hm Hmf.
  unfold respond, reassignStudentMentor, try_catch, bind.
  rewrite (Student_findById_cast _ _ _ Hs), (Mentor_findById_cast _ _ _ Hm).
  rewrite Hmf, Hsf. cbn.
  unfold linked, rementored, enrolled.
  destruct sf as [n [old |] p]; reflexivity.
Qed.

Lemma reassign_missing st studentId mentorId sid mid :
  castObjectId studentId = Some sid → castObjectId mentorId = Some mid →
  students st !! sid = None ∨ mentors st !! mid = None →
  respond (reassignStudentMentor studentId mentorId) st =
    (st, Send 404 (BText "Student or Mentor not found")).
Proof.
  intros Hs Hm Hnone.
  unfold respond, reassignStudentMentor, try_catch, bind.
  rewrite (Student_findById_cast _ _ _ Hs), (Mentor_findById_cast _ _ _ Hm).
  destruct Hnone as [-> | ->]; cbn; [reflexivity |].
  destruct (students st !! sid); reflexivity.
Qed.

Lemma reassign_malformed st studentId mentorId :
  castObjectId studentId = None ∨ castObjectId mentorId = None →
  ∃ details,
    respond (reassignStudentMentor studentId mentorId) st =
      (st, Send 500 (BError "Error updating student mentor" details)).
Proof.
  intros Hbad. eexists.
  unfold respond, reassignStudentMentor, try_catch, bind.
  destruct (castObjectId studentId) as [sid |] eqn:Hs.
  - destruct Hbad as [Hbad | Hbad]; [discriminate |].
    rewrite (Student_findById_cast _ _ _ Hs), (Mentor_findById_rejects _ _ Hbad).
    reflexivity.
  - rewrite (Student_findById_rejects _ _ Hs). reflexivity.
Qed.

(** ** What each query handler computes *)

Lemma getMentorStudents_cast st mentorId mid :
  castObjectId mentorId = Some mid →
  respond (getMentorStudents mentorId) st =
    match mentors st !! mid with
    | Some mf => (st, Send 200 (BStudents (populate_students st (Mentor.students mf))))
    | None => (st, Send 404 (BText "Mentor not found"))
    end.
Proof.
  intros Hm.
  unfold respond, getMentorStudents, Mentor_findById_populate, try_catch, bind.
  rewrite (Mentor_findById_cast _ _ _ Hm).
  destruct (mentors st !! mid); reflexivity.
Qed.

Lemma getMentorStudents_malformed st mentorId :
  castObjectId mentorId = None →
  ∃ details,
    respond (getMentorStudents mentorId) st =
      (st, Send 500 (BError "Error fetching students for mentor" details)).
Proof.
  intros Hm. eexists.
  unfold respond, getMentorStudents, Mentor_findById_populate, try_catch, bind.
  rewrite (Mentor_findById_rejects _ _ Hm). reflexivity.
Qed.

Lemma getPreviousMentor_cast st studentId sid :
  castObjectId studentId = Some sid →
  respond (getPreviousMentor studentId) st =
    match students st !! sid with
    | Some sf =>
        (st, Send 200
               match populate_previousMentor st (Student.previousMentor sf) with
               | Some previousMentor => BMentor previousMentor
               | None => BEmpty
               end)
    | None => (st, Send 404 (BText "Student not found"))
    end.
Proof.
  intros Hs.
  unfold respond, getPreviousMentor, Student_findById_populate, try_catch, bind.
  rewrite (Student_findById_cast _ _ _ Hs).
  destruct (students st !! sid) as [sf |]; [| reflexivity].
  cbn. destruct (populate_previousMentor st (Student.previousMentor sf)); reflexivity.
Qed.

Lemma getPreviousMentor_malformed st studentId :
  castObjectId studentId = None →
  ∃ details,
    respond (getPreviousMentor studentId) st =
      (st, Send 500 (BError "Error fetching previous mentor for student" details)).
Proof.
  intros Hs. eexists.
  unfold respond, getPreviousMentor, Student_findById_populate, try_catch, bind.
  rewrite (Student_findById_rejects _ _ Hs). reflexivity.
Qed.

(** ** What the create handlers compute *)

Lemma createMentor_spec st gen body :
  respond (createMentor gen body) st =
    match Mentor_new gen body with
    | Some mentor =>
        match mentors st !! Mentor._id mentor with
        | None =>
            (MkStore (<[Mentor._id mentor := Mentor.data mentor]> (mentors st))
                     (students st),
             Send 201 (BMentor mentor))
        | Some _ =>
            (st, Send 500 (BError "Error creating mentor" "E11000 duplicate key error"))
        end
    | None => (st, Send 500 (BError "Error creating mentor" "Mentor validation failed"))
    end.
Proof.
  unfold respond, createMentor, Mentor_insert, try_catch, bind.
  destruct (Mentor_new gen body) as [mentor |]; [| reflexivity].
  cbn. destruct (mentors st !! Mentor._id mentor); reflexivity.
Qed.

Lemma createStudent_spec st gen body :
  respond (createStudent gen body) st =
    match Student_new gen body with
    | Some student =>
        match students st !! Student._id student with
        | None =>
            (MkStore (mentors st)
                     (<[Student._id student := Student.data student]> (students st)),
             Send 201 (BStudent student))
        | Some _ =>
            (st, Send 500 (BError "Error creating student" "E11000 duplicate key error"))
        end
    | None => (st, Send 500 (BError "Error creating student" "Student validation failed"))
    end.
Proof.
  unfold respond, createStudent, Student_insert, try_catch, bind.
  destruct (Student_new gen body) as [student |]; [| reflexivity].
  cbn. destruct (students st !! Student._id student); reflexivity.
Qed.

Lemma list_handlers_pure st :
  (respond getRoot st).1 = st ∧ (respond listMentors st).1 = st
  ∧ (respond listStudents st).1 = st.
Proof. repeat split. Qed.

(** ** Assignment *)

(** C1: when [mentorId] resolves to a mentor and [studentId] to a student
    without a mentor, the assignment answers 200 with the updated mentor
    document, and in the resulting store the student's [mentor] is that
    mentor and the mentor's roster contains the student. *)
Theorem assign_links_student_and_mentor st mentorId studentId mid sid mf sf :
  castObjectId mentorId = Some mid → mentors st !! mid = Some mf →
  castObjectId studentId = Some sid → students st !! sid = Some sf →
  Student.mentor sf = None →
  ∃ st' mf' sf',
    handle (PostAssign mentorId studentId) st
      = (st', Send 200 (BMentor (Mentor.Doc mid mf')))
    ∧ mentors st' !! mid = Some mf'
    ∧ students st' !! sid = Some sf'
    ∧ Student.mentor sf' = Some mid
    ∧ sid ∈ Mentor.students mf'
    ∧ Mentor.students mf' = Mentor.students mf ++ [sid]
    ∧ Mentor.name mf' = Mentor.name mf
    ∧ Student.name sf' = Student.name sf
    ∧ Student.previousMentor sf' = Student.previousMentor sf.
Proof.
  intros Hm Hmf Hs Hsf Hfree.
  exists (linked st mid sid mf (mentored mid sf)), (enrolled sid mf), (mentored mid sf).
  unfold handle; cbn [route].
  rewrite (assign_found _ _ _ _ _ _ _ Hm Hmf Hs Hsf), Hfree. cbn [truthy].
  split; [reflexivity |].
  unfold linked; cbn [mentors students].
  rewrite !lookup_insert_eq.
  repeat split; try reflexivity.
  cbn. apply elem_of_app. right. apply list_elem_of_singleton. reflexivity.
Qed.

(** C2: a student whose [mentor] is set cannot be assigned: the handler
    answers 400 and leaves the store as it was.  Hence of two assignments
    of the same student, to any mentors that resolve, the second one is
    answered 400, whatever the first one did. *)
Theorem assign_refuses_assigned_student
    st mentorId mentorId' studentId mid mid' sid mf mf' sf :
  castObjectId mentorId = Some mid → mentors st !! mid = Some mf →
  castObjectId mentorId' = Some mid' → mentors st !! mid' = Some mf' →
  castObjectId studentId = Some sid → students st !! sid = Some sf →
  (is_Some (Student.mentor sf) →
     handle (PostAssign mentorId studentId) st
       = (st, Send 400 (BText "Student already has a mentor")))
  ∧ (let st1 := (handle (PostAssign mentorId studentId) st).1 in
     handle (PostAssign mentorId' studentId) st1
       = (st1, Send 400 (BText "Student already has a mentor"))).
Proof.
  intros Hm Hmf Hm' Hmf' Hs Hsf.
  assert (Hfirst :
    handle (PostAssign mentorId studentId) st =
      if truthy (Student.mentor sf)
      then (st, Send 400 (BText "Student already has a mentor"))
      else (linked st mid sid mf (mentored mid sf),
            Send 200 (BMentor (Mentor.Doc mid (enrolled sid mf))))).
  { unfold handle; cbn [route]. by apply assign_found. }
  split.
  - intros [old Hold]. rewrite Hfirst, Hold. reflexivity.
  - cbn zeta. rewrite Hfirst.
    destruct (Student.mentor sf) as [old |] eqn:Hold; cbn [truthy fst].
    + unfold handle; cbn [route].
      rewrite (assign_found _ _ _ _ _ _ _ Hm' Hmf' Hs Hsf), Hold. reflexivity.
    + assert (Hmf1 : ∃ mf1, mentors (linked st mid sid mf (mentored mid sf)) !! mid'
                            = Some mf1).
      { unfold linked; cbn [mentors]. rewrite lookup_insert.
        case_decide; eauto. }
      destruct Hmf1 as [mf1 Hmf1].
      unfold handle; cbn [route].
      rewrite (assign_found _ _ _ mid' sid mf1 (mentored mid sf) Hm' Hmf1 Hs).
      * reflexivity.
      * unfold linked; cbn [students]. apply lookup_insert_eq.
Qed.

(** ** Reassignment *)

Lemma handle_reassign_found st studentId mentorId sid mid sf mf :
  castObjectId studentId = Some sid → students st !! sid = Some sf →
  castObjectId mentorId = Some mid → mentors st !! mid = Some mf →
  handle (PutReassign studentId mentorId) st =
    (linked st mid sid mf (rementored mid sf),
     Send 200 (BStudent (Student.Doc sid (rementored mid sf)))).
Proof. intros. unfold handle; cbn [route]. by apply reassign_found. Qed.

Lemma linked_student st mid sid mf sf :
  students (linked st mid sid mf sf) !! sid = Some sf.
Proof. unfold linked; cbn [students]. apply lookup_insert_eq. Qed.

Lemma linked_mentor st mid sid mf sf :
  mentors (linked st mid sid mf sf) !! mid = Some (enrolled sid mf).
Proof. unfold linked; cbn [mentors]. apply lookup_insert_eq. Qed.

Lemma linked_other_mentor st mid sid mf sf mid' :
  mid ≠ mid' → mentors (linked st mid sid mf sf) !! mid' = mentors st !! mid'.
Proof. intros. unfold linked; cbn [mentors]. by apply lookup_insert_ne. Qed.

Lemma linked_other_student st mid sid mf sf sid' :
  sid ≠ sid' → students (linked st mid sid mf sf) !! sid' = students st !! sid'.
Proof. intros. unfold linked; cbn [students]. by apply lookup_insert_ne. Qed.

Lemma linked_mentor_resolves st mid sid mf sf mid' mf' :
  mentors st !! mid' = Some mf' →
  ∃ mf1, mentors (linked st mid sid mf sf) !! mid' = Some mf1.
Proof.
  intros Hmf'. destruct (decide (mid = mid')) as [<- | Hne].
  - rewrite linked_mentor. eauto.
  - rewrite linked_other_mentor by done. eauto.
Qed.

(** C3: reassigning a student who has mentor M1 to M2 answers 200 with the
    updated student document, whose [mentor] is M2 and whose
    [previousMentor] is M1; a student without a mentor keeps the
    [previousMentor] it had.  A second reassignment, to M3, leaves M2 in
    [previousMentor]: the slot is overwritten and M1 is gone. *)
Theorem reassign_keeps_one_previous_mentor
    st studentId sid sf mentorId2 M2 mf2 mentorId3 M3 mf3 :
  castObjectId studentId = Some sid → students st !! sid = Some sf →
  castObjectId mentorId2 = Some M2 → mentors st !! M2 = Some mf2 →
  castObjectId mentorId3 = Some M3 → mentors st !! M3 = Some mf3 →
  ∃ st1 sf1 st2 sf2,
    handle (PutReassign studentId mentorId2) st
      = (st1, Send 200 (BStudent (Student.Doc sid sf1)))
    ∧ students st1 !! sid = Some sf1
    ∧ Student.mentor sf1 = Some M2
    ∧ (∀ M1, Student.mentor sf = Some M1 → Student.previousMentor sf1 = Some M1)
    ∧ (Student.mentor sf = None →
         Student.previousMentor sf1 = Student.previousMentor sf)
    ∧ handle (PutReassign studentId mentorId3) st1
        = (st2, Send 200 (BStudent (Student.Doc sid sf2)))
    ∧ students st2 !! sid = Some sf2
    ∧ Student.mentor sf2 = Some M3
    ∧ Student.previousMentor sf2 = Some M2.
Proof.
  intros Hs Hsf H2 Hmf2 H3 Hmf3.
  set (sf1 := rementored M2 sf).
  set (st1 := linked st M2 sid mf2 sf1).
  destruct (linked_mentor_resolves st M2 sid mf2 sf1 M3 mf3 Hmf3) as [mf3' Hmf3'].
  exists st1, sf1, (linked st1 M3 sid mf3' (rementored M3 sf1)), (rementored M3 sf1).
  split; [by apply handle_reassign_found |].
  split; [apply linked_student |].
  split; [reflexivity |].
  split; [intros M1 HM1; subst sf1; unfold rementored; by rewrite HM1 |].
  split; [intros HM1; subst sf1; unfold rementored; by rewrite HM1 |].
  split.
  { apply handle_reassign_found; try done. apply linked_student. }
  split; [apply linked_student |].
  split; reflexivity.
Qed.

(** C9: the reassignment pushes the student id onto the target mentor's
    roster without looking at it.  The roster grows by exactly that one
    entry; if it already held the id (as when a student is reassigned to
    the mentor they already have) it now holds it twice; and repeating the
    same reassignment pushes once more, so the handler is not idempotent on
    the roster. *)
Theorem reassign_pushes_unconditionally st studentId mentorId sid mid sf mf :
  castObjectId studentId = Some sid → students st !! sid = Some sf →
  castObjectId mentorId = Some mid → mentors st !! mid = Some mf →
  let roster := Mentor.students mf in
  let st1 := (handle (PutReassign studentId mentorId) st).1 in
  let st2 := (handle (PutReassign studentId mentorId) st1).1 in
  Mentor.students <$> mentors st1 !! mid = Some (roster ++ [sid])
  ∧ (sid ∈ roster → ¬ NoDup (roster ++ [sid]))
  ∧ Mentor.students <$> mentors st2 !! mid = Some (roster ++ [sid; sid])
  ∧ ¬ NoDup (roster ++ [sid; sid])
  ∧ mentors st2 !! mid ≠ mentors st1 !! mid.
Proof.
  intros Hs Hsf Hm Hmf roster st1 st2.
  assert (Hst1 : st1 = linked st mid sid mf (rementored mid sf)).
  { subst st1. by rewrite (handle_reassign_found _ _ _ _ _ _ _ Hs Hsf Hm Hmf). }
  assert (Hst2 : st2 = linked st1 mid sid (enrolled sid mf)
                         (rementored mid (rementored mid sf))).
  { subst st2.
    rewrite (handle_reassign_found st1 _ _ sid mid (rementored mid sf) (enrolled sid mf));
      try done; rewrite Hst1; [apply linked_student | apply linked_mentor]. }
  assert (Hdup : ¬ NoDup (roster ++ [sid; sid])).
  { intros Hnd. apply NoDup_app in Hnd as (_ & _ & Hnd).
    apply NoDup_cons in Hnd as [Hnotin _].
    apply Hnotin, list_elem_of_singleton. reflexivity. }
  split; [rewrite Hst1, linked_mentor; reflexivity |].
  split.
  { intros Hin Hnd. apply NoDup_app in Hnd as (_ & Hdisj & _).
    apply (Hdisj sid Hin), list_elem_of_singleton. reflexivity. }
  split.
  { rewrite Hst2, linked_mentor. cbn. unfold roster.
    by rewrite <- app_assoc. }
  split; [exact Hdup |].
  rewrite Hst2, linked_mentor, Hst1, linked_mentor.
  intros Heq. injection Heq as Heq.
  apply (f_equal length) in Heq. rewrite !length_app in Heq. cbn in Heq. lia.
Qed.

(** ** Which documents a request can change *)

Lemma assign_store_cases st mentorId studentId :
  (handle (PostAssign mentorId studentId) st).1 = st
  ∨ ∃ mid sid mf sf,
      castObjectId mentorId = Some mid ∧ castObjectId studentId = Some sid
      ∧ mentors st !! mid = Some mf ∧ students st !! sid = Some sf
      ∧ Student.mentor sf = None
      ∧ (handle (PostAssign mentorId studentId) st).1
          = linked st mid sid mf (mentored mid sf).
Proof.
  unfold handle; cbn [route].
  destruct (castObjectId mentorId) as [mid |] eqn:Hm; cycle 1.
  { left. destruct (assign_malformed st mentorId studentId) as [d ->]; auto. }
  destruct (castObjectId studentId) as [sid |] eqn:Hs; cycle 1.
  { left. destruct (assign_malformed st mentorId studentId) as [d ->]; auto. }
  destruct (mentors st !! mid) as [mf |] eqn:Hmf; cycle 1.
  { left. rewrite (assign_missing _ _ _ _ _ Hm Hs); auto. }
  destruct (students st !! sid) as [sf |] eqn:Hsf; cycle 1.
  { left. rewrite (assign_missing _ _ _ _ _ Hm Hs); auto. }
  rewrite (assign_found _ _ _ _ _ _ _ Hm Hmf Hs Hsf).
  destruct (Student.mentor sf) eqn:Hcur; cbn [truthy]; [by left |].
  right. exists mid, sid, mf, sf. auto 10.
Qed.

Lemma reassign_store_cases st studentId mentorId :
  (handle (PutReassign studentId mentorId) st).1 = st
  ∨ ∃ mid sid mf sf,
      castObjectId mentorId = Some mid ∧ castObjectId studentId = Some sid
      ∧ mentors st !! mid = Some mf ∧ students st !! sid = Some sf
      ∧ (handle (PutReassign studentId mentorId) st).1
          = linked st mid sid mf (rementored mid sf).
Proof.
  unfold handle; cbn [route].
  destruct (castObjectId studentId) as [sid |] eqn:Hs; cycle 1.
  { left. destruct (reassign_malformed st studentId mentorId) as [d ->]; auto. }
  destruct (castObjectId mentorId) as [mid |] eqn:Hm; cycle 1.
  { left. destruct (reassign_malformed st studentId mentorId) as [d ->]; auto. }
  destruct (students st !! sid) as [sf |] eqn:Hsf; cycle 1.
  { left. rewrite (reassign_missing _ _ _ _ _ Hs Hm); auto. }
  destruct (mentors st !! mid) as [mf |] eqn:Hmf; cycle 1.
  { left. rewrite (reassign_missing _ _ _ _ _ Hs Hm); auto. }
  rewrite (reassign_found _ _ _ _ _ _ _ Hs Hsf Hm Hmf).
  right. exists mid, sid, mf, sf. auto 10.
Qed.

(** C10: an assignment or a reassignment changes at most the student and
    the mentor named in its path.  Every other student document and every
    other mentor document, the student's former mentor included, is the
    same before and after. *)
Theorem assignment_touches_two_documents st mentorId studentId :
  let st1 := (handle (PostAssign mentorId studentId) st).1 in
  let st2 := (handle (PutReassign studentId mentorId) st).1 in
  (∀ sid', castObjectId studentId ≠ Some sid' →
     students st1 !! sid' = students st !! sid'
     ∧ students st2 !! sid' = students st !! sid')
  ∧ (∀ mid', castObjectId mentorId ≠ Some mid' →
     mentors st1 !! mid' = mentors st !! mid'
     ∧ mentors st2 !! mid' = mentors st !! mid').
Proof.
  intros st1 st2.
  assert (H1 := assign_store_cases st mentorId studentId).
  assert (H2 := reassign_store_cases st studentId mentorId).
  fold st1 in H1. fold st2 in H2.
  split.
  - intros sid' Hne. split.
    + destruct H1 as [-> | (mid & sid & mf & sf & Hm & Hs & _ & _ & _ & ->)];
        [done |].
      apply linked_other_student. congruence.
    + destruct H2 as [-> | (mid & sid & mf & sf & Hm & Hs & _ & _ & ->)];
        [done |].
      apply linked_other_student. congruence.
  - intros mid' Hne. split.
    + destruct H1 as [-> | (mid & sid & mf & sf & Hm & Hs & _ & _ & _ & ->)];
        [done |].
      apply linked_other_mentor. congruence.
    + destruct H2 as [-> | (mid & sid & mf & sf & Hm & Hs & _ & _ & ->)];
        [done |].
      apply linked_other_mentor. congruence.
Qed.

(** Any request either leaves the store alone, links a student and a
    mentor that exist, or inserts one document under an unused id. *)
Lemma handle_store_cases req st :
  (handle req st).1 = st
  ∨ (∃ mid sid mf sf sf',
       mentors st !! mid = Some mf ∧ students st !! sid = Some sf
       ∧ (handle req st).1 = linked st mid sid mf sf')
  ∨ (∃ mid mf,
       mentors st !! mid = None
       ∧ (handle req st).1 = MkStore (<[mid := mf]> (mentors st)) (students st))
  ∨ (∃ sid sf,
       students st !! sid = None
       ∧ (handle req st).1 = MkStore (mentors st) (<[sid := sf]> (students st))).
Proof.
  destruct req as [| | | gen body | gen body | m s | s m | m | s].
  - by left.
  - by left.
  - by left.
  - unfold handle; cbn [route]. rewrite createMentor_spec.
    destruct (Mentor_new gen body) as [mentor |]; [| by left].
    destruct (mentors st !! Mentor._id mentor) eqn:Hfree; [by left |].
    right; right; left. eauto.
  - unfold handle; cbn [route]. rewrite createStudent_spec.
    destruct (Student_new gen body) as [student |]; [| by left].
    destruct (students st !! Student._id student) eqn:Hfree; [by left |].
    right; right; right. eauto.
  - destruct (assign_store_cases st m s)
      as [? | (mid & sid & mf & sf & _ & _ & ? & ? & _ & ?)]; [by left |].
    right; left. eauto 10.
  - destruct (reassign_store_cases st s m)
      as [? | (mid & sid & mf & sf & _ & _ & ? & ? & ?)]; [by left |].
    right; left. eauto 10.
  - unfold handle; cbn [route].
    destruct (castObjectId m) as [mid |] eqn:Hm.
    + rewrite (getMentorStudents_cast _ _ _ Hm).
      left. by destruct (mentors st !! mid).
    + destruct (getMentorStudents_malformed st m Hm) as [d ->]. by left.
  - unfold handle; cbn [route].
    destruct (castObjectId s) as [sid |] eqn:Hs.
    + rewrite (getPreviousMentor_cast _ _ _ Hs).
      left. by destruct (students st !! sid).
    + destruct (getPreviousMentor_malformed st s Hs) as [d ->]. by left.
Qed.

(** ** Rosters only grow *)

Lemma handle_roster_grows req st mid mf :
  mentors st !! mid = Some mf →
  ∃ mf', mentors (handle req st).1 !! mid = Some mf'
         ∧ Mentor.students mf `prefix_of` Mentor.students mf'.
Proof.
  intros Hmf.
  destruct (handle_store_cases req st)
    as [-> | [(m & s & mf0 & sf0 & sf' & Hm & _ & ->)
           | [(m & mf0 & Hfree & ->) | (s & sf0 & _ & ->)]]].
  - eauto.
  - destruct (decide (m = mid)) as [-> | Hne].
    + rewrite linked_mentor. eexists; split; [reflexivity |].
      rewrite Hmf in Hm. injection Hm as <-. by apply prefix_app_r.
    + rewrite linked_other_mentor by done. eauto.
  - cbn [mentors]. rewrite lookup_insert_ne by congruence. eauto.
  - cbn [mentors]. eauto.
Qed.

Lemma handle_student_persists req st sid sf :
  students st !! sid = Some sf → is_Some (students (handle req st).1 !! sid).
Proof.
  intros Hsf.
  destruct (handle_store_cases req st)
    as [-> | [(m & s & mf0 & sf0 & sf' & _ & _ & ->)
           | [(m & mf0 & _ & ->) | (s & sf0 & Hfree & ->)]]].
  - eauto.
  - destruct (decide (s = sid)) as [-> | Hne].
    + rewrite linked_student. eauto.
    + rewrite linked_other_student by done. eauto.
  - cbn [students]. eauto.
  - cbn [students]. rewrite lookup_insert_ne by congruence. eauto.
Qed.

Lemma serve_cons req reqs st :
  serve (req :: reqs) st = serve reqs (handle req st).1.
Proof. reflexivity. Qed.

Lemma serve_roster_grows reqs : ∀ st mid mf,
  mentors st !! mid = Some mf →
  ∃ mf', mentors (serve reqs st) !! mid = Some mf'
         ∧ Mentor.students mf `prefix_of` Mentor.students mf'.
Proof.
  induction reqs as [| req reqs IH]; intros st mid mf Hmf.
  - exists mf. split; [exact Hmf | reflexivity].
  - rewrite serve_cons.
    destruct (handle_roster_grows req st mid mf Hmf) as (mf1 & Hmf1 & Hpre1).
    destruct (IH _ mid mf1 Hmf1) as (mf2 & Hmf2 & Hpre2).
    exists mf2. split; [exact Hmf2 | by etrans].
Qed.

Lemma serve_student_persists reqs : ∀ st sid sf,
  students st !! sid = Some sf → is_Some (students (serve reqs st) !! sid).
Proof.
  induction reqs as [| req reqs IH]; intros st sid sf Hsf.
  - cbn. eauto.
  - rewrite serve_cons.
    destruct (handle_student_persists req st sid sf Hsf) as [sf1 Hsf1].
    by apply (IH _ sid sf1).
Qed.

(** A roster entry stays on the roster whatever requests follow. *)
Lemma serve_roster_keeps reqs st mid mf sid :
  mentors st !! mid = Some mf → sid ∈ Mentor.students mf →
  ∃ mf', mentors (serve reqs st) !! mid = Some mf' ∧ sid ∈ Mentor.students mf'.
Proof.
  intros Hmf Hin.
  destruct (serve_roster_grows reqs st mid mf Hmf) as (mf' & Hmf' & [k Hk]).
  exists mf'. split; [exact Hmf' |].
  rewrite Hk. apply elem_of_app. by left.
Qed.

(** ** The bidirectional invariant *)

Lemma mentor_consistent_elim st mid mf sid :
  mentor_consistent st mid = true →
  mentors st !! mid = Some mf → sid ∈ Mentor.students mf →
  ∃ sf, students st !! sid = Some sf ∧ Student.mentor sf = Some mid.
Proof.
  unfold mentor_consistent. intros Hc Hmf Hin. rewrite Hmf in Hc.
  rewrite forallb_forall in Hc.
  apply list_elem_of_In, Hc in Hin. unfold student_of in Hin.
  destruct (students st !! sid) as [sf |]; [| discriminate].
  exists sf. split; [reflexivity |]. by apply bool_decide_eq_true in Hin.
Qed.

(** A roster entry whose student points elsewhere breaks the invariant. *)
Lemma stale_entry_inconsistent st mid mf sid :
  mentors st !! mid = Some mf → sid ∈ Mentor.students mf →
  Student.mentor <$> students st !! sid ≠ Some (Some mid) →
  mentor_consistent st mid = false.
Proof.
  intros Hmf Hin Hother.
  destruct (mentor_consistent st mid) eqn:Hc; [| reflexivity].
  destruct (mentor_consistent_elim st mid mf sid Hc Hmf Hin) as (sf & Hsf & Hcur).
  exfalso. apply Hother. by rewrite Hsf, <- Hcur.
Qed.

(** C4 (as amended): reassigning a student from mentor M1 to a different
    mentor M2 does not touch M1's document, so M1's roster still lists the
    student and the invariant fails for M1 in the resulting store.  No later
    request prunes the entry: after any further requests M1 still lists the
    student, the invariant fails for M1 for as long as the student's
    [mentor] is not M1 again, and it never again holds for both M1 and M2. *)
Theorem reassign_leaves_stale_reference
    st studentId mentorId sid sf M1 mf1 M2 mf2 :
  castObjectId studentId = Some sid → students st !! sid = Some sf →
  Student.mentor sf = Some M1 →
  mentors st !! M1 = Some mf1 → sid ∈ Mentor.students mf1 →
  castObjectId mentorId = Some M2 → mentors st !! M2 = Some mf2 →
  M1 ≠ M2 →
  let st1 := (handle (PutReassign studentId mentorId) st).1 in
  mentors st1 !! M1 = Some mf1
  ∧ mentor_consistent st1 M1 = false
  ∧ ∀ reqs,
      let st2 := serve reqs st1 in
      (∃ mf1', mentors st2 !! M1 = Some mf1' ∧ sid ∈ Mentor.students mf1')
      ∧ (Student.mentor <$> students st2 !! sid ≠ Some (Some M1) →
           mentor_consistent st2 M1 = false)
      ∧ mentor_consistent st2 M1 && mentor_consistent st2 M2 = false.
Proof.
  intros Hs Hsf Hcur Hmf1 Hin Hm Hmf2 Hne st1.
  assert (Hst1 : st1 = linked st M2 sid mf2 (rementored M2 sf)).
  { subst st1. by rewrite (handle_reassign_found _ _ _ _ _ _ _ Hs Hsf Hm Hmf2). }
  assert (Hold : mentors st1 !! M1 = Some mf1).
  { rewrite Hst1, linked_other_mentor by done. exact Hmf1. }
  assert (Hnew : mentors st1 !! M2 = Some (enrolled sid mf2)).
  { rewrite Hst1. apply linked_mentor. }
  assert (Hstu : students st1 !! sid = Some (rementored M2 sf)).
  { rewrite Hst1. apply linked_student. }
  split; [exact Hold |].
  split.
  { apply (stale_entry_inconsistent st1 M1 mf1 sid Hold Hin).
    rewrite Hstu. cbn. congruence. }
  intros reqs st2.
  destruct (serve_roster_keeps reqs st1 M1 mf1 sid Hold Hin) as (mf1' & Hmf1' & Hin1).
  assert (Hin2 : sid ∈ Mentor.students (enrolled sid mf2)).
  { cbn. apply elem_of_app. right. by apply list_elem_of_singleton. }
  destruct (serve_roster_keeps reqs st1 M2 _ sid Hnew Hin2) as (mf2' & Hmf2' & Hin2').
  fold st2 in Hmf1', Hmf2'.
  split; [eauto |].
  split; [by apply (stale_entry_inconsistent st2 M1 mf1' sid) |].
  destruct (mentor_consistent st2 M1) eqn:Hc1; [| reflexivity].
  destruct (mentor_consistent st2 M2) eqn:Hc2; [| reflexivity].
  destruct (mentor_consistent_elim st2 M1 mf1' sid Hc1 Hmf1' Hin1) as (x & Hx & Hx1).
  destruct (mentor_consistent_elim st2 M2 mf2' sid Hc2 Hmf2' Hin2') as (y & Hy & Hy2).
  congruence.
Qed.

(** ** Ids that do not resolve *)

Lemma lookup_in_cases {A} (coll : gmap ObjectId A) id :
  (lookup_in coll id = Malformed ∧ castObjectId id = None)
  ∨ (∃ oid, lookup_in coll id = Missing ∧ castObjectId id = Some oid
            ∧ coll !! oid = None)
  ∨ (∃ oid a, lookup_in coll id = Found ∧ castObjectId id = Some oid
              ∧ coll !! oid = Some a).
Proof.
  unfold lookup_in. destruct (castObjectId id) as [oid |]; [| by left].
  destruct (coll !! oid) as [a |] eqn:Hl; right; [right | left]; eauto.
Qed.

(** C5 (as amended): when an id in the path of a request does not resolve
    to a document, the handler leaves the store exactly as it was.  It
    answers 404 if every id in the path is a well-formed ObjectId, and 500
    if [findById] rejects one of them as malformed. *)
Theorem unresolved_id_changes_nothing req st :
  existsb (λ l, negb (is_found l)) (referenced st req) = true →
  ∃ r, handle req st = (st, r)
       ∧ status r = if existsb is_malformed (referenced st req) then 500 else 404.
Proof.
  destruct req as [| | | gen body | gen body | m s | s m | m | s];
    cbn [referenced existsb]; try discriminate; intros Hun.
  - unfold handle; cbn [route].
    destruct (lookup_in_cases (mentors st) m)
      as [[Hlm Hm] | [(mid & Hlm & Hm & Hmf) | (mid & mf & Hlm & Hm & Hmf)]];
      destruct (lookup_in_cases (students st) s)
      as [[Hls Hs] | [(sid & Hls & Hs & Hsf) | (sid & sf & Hls & Hs & Hsf)]];
      rewrite Hlm, Hls in *; cbn in Hun |- *; try discriminate.
    1-3: destruct (assign_malformed st m s (or_introl Hm)) as [d ->]; eauto.
    2-3: rewrite (assign_missing _ _ _ _ _ Hm Hs (or_introl Hmf)); eauto.
    + destruct (assign_malformed st m s (or_intror Hs)) as [d ->]; eauto.
    + destruct (assign_malformed st m s (or_intror Hs)) as [d ->]; eauto.
    + rewrite (assign_missing _ _ _ _ _ Hm Hs (or_intror Hsf)); eauto.
  - unfold handle; cbn [route].
    destruct (lookup_in_cases (students st) s)
      as [[Hls Hs] | [(sid & Hls & Hs & Hsf) | (sid & sf & Hls & Hs & Hsf)]];
      destruct (lookup_in_cases (mentors st) m)
      as [[Hlm Hm] | [(mid & Hlm & Hm & Hmf) | (mid & mf & Hlm & Hm & Hmf)]];
      rewrite Hlm, Hls in *; cbn in Hun |- *; try discriminate.
    1-3: destruct (reassign_malformed st s m (or_introl Hs)) as [d ->]; eauto.
    2-3: rewrite (reassign_missing _ _ _ _ _ Hs Hm (or_introl Hsf)); eauto.
    + destruct (reassign_malformed st s m (or_intror Hm)) as [d ->]; eauto.
    + destruct (reassign_malformed st s m (or_intror Hm)) as [d ->]; eauto.
    + rewrite (reassign_missing _ _ _ _ _ Hs Hm (or_intror Hmf)); eauto.
  - unfold handle; cbn [route].
    destruct (lookup_in_cases (mentors st) m)
      as [[Hlm Hm] | [(mid & Hlm & Hm & Hmf) | (mid & mf & Hlm & Hm & Hmf)]];
      rewrite Hlm in *; cbn in Hun |- *; try discriminate.
    + destruct (getMentorStudents_malformed st m Hm) as [d ->]. eauto.
    + rewrite (getMentorStudents_cast _ _ _ Hm), Hmf. eauto.
  - unfold handle; cbn [route].
    destruct (lookup_in_cases (students st) s)
      as [[Hls Hs] | [(sid & Hls & Hs & Hsf) | (sid & sf & Hls & Hs & Hsf)]];
      rewrite Hls in *; cbn in Hun |- *; try discriminate.
    + destruct (getPreviousMentor_malformed st s Hs) as [d ->]. eauto.
    + rewrite (getPreviousMentor_cast _ _ _ Hs), Hsf. eauto.
Qed.

(** ** Queries *)

(** Populating a roster yields stored documents only, in roster order. *)
Lemma populate_students_stored st ids d :
  d ∈ populate_students st ids →
  Student._id d ∈ ids ∧ students st !! Student._id d = Some (Student.data d).
Proof.
  unfold populate_students. rewrite list_elem_of_omap.
  intros (i & Hin & Hd).
  destruct (students st !! i) as [sf |] eqn:Hsf; [| discriminate].
  injection Hd as <-. by split.
Qed.

(** When every id on the roster resolves, each one is replaced by its
    document, position by position. *)
Lemma populate_students_resolved st ids :
  Forall (λ i, is_Some (students st !! i)) ids →
  Forall2 (λ i d, Student._id d = i ∧ students st !! i = Some (Student.data d))
    ids (populate_students st ids).
Proof.
  induction 1 as [| i ids [sf Hsf] _ IH]; [constructor |].
  unfold populate_students in *. cbn. rewrite Hsf. cbn.
  constructor; [by split | exact IH].
Qed.

Lemma populate_students_cons st i ids :
  populate_students st (i :: ids)
  = match students st !! i with
    | Some sf => Student.Doc i sf :: populate_students st ids
    | None => populate_students st ids
    end.
Proof. unfold populate_students. cbn. by destruct (students st !! i). Qed.

Lemma populate_students_app st ids ids' :
  populate_students st (ids ++ ids')
  = populate_students st ids ++ populate_students st ids'.
Proof. unfold populate_students. apply omap_app. Qed.

(** C6 (as amended): for a mentor id that resolves, the query answers 200
    with the roster populated: each id replaced, in order, by the student
    document stored under it.  After two unassigned students have been
    assigned to the mentor, the answer ends with their two documents, each
    with [mentor] set.  For a well-formed id that does not resolve the
    answer is 404. *)
Theorem mentor_students_are_populated st mentorId mid :
  castObjectId mentorId = Some mid →
  (∀ mf, mentors st !! mid = Some mf →
     handle (GetMentorStudents mentorId) st
       = (st, Send 200 (BStudents (populate_students st (Mentor.students mf))))
     ∧ (Forall (λ i, is_Some (students st !! i)) (Mentor.students mf) →
        Forall2 (λ i d, Student._id d = i
                        ∧ students st !! i = Some (Student.data d))
          (Mentor.students mf) (populate_students st (Mentor.students mf))))
  ∧ (∀ mf studentId1 studentId2 sid1 sid2 sf1 sf2,
       mentors st !! mid = Some mf →
       castObjectId studentId1 = Some sid1 → students st !! sid1 = Some sf1 →
       castObjectId studentId2 = Some sid2 → students st !! sid2 = Some sf2 →
       Student.mentor sf1 = None → Student.mentor sf2 = None → sid1 ≠ sid2 →
       let st2 :=
         serve [PostAssign mentorId studentId1; PostAssign mentorId studentId2] st in
       (handle (GetMentorStudents mentorId) st2).2
         = Send 200 (BStudents
             (populate_students st2 (Mentor.students mf)
              ++ [Student.Doc sid1 (mentored mid sf1);
                  Student.Doc sid2 (mentored mid sf2)])))
  ∧ (mentors st !! mid = None →
     handle (GetMentorStudents mentorId) st
       = (st, Send 404 (BText "Mentor not found"))).
Proof.
  intros Hm. split; [| split].
  - intros mf Hmf. split.
    + unfold handle; cbn [route].
      by rewrite (getMentorStudents_cast _ _ _ Hm), Hmf.
    + apply populate_students_resolved.
  - intros mf s1 s2 sid1 sid2 sf1 sf2 Hmf Hs1 Hsf1 Hs2 Hsf2 Hf1 Hf2 Hne st2.
    set (st1 := linked st mid sid1 mf (mentored mid sf1)).
    assert (Hst1 : (handle (PostAssign mentorId s1) st).1 = st1).
    { unfold handle; cbn [route].
      by rewrite (assign_found _ _ _ _ _ _ _ Hm Hmf Hs1 Hsf1), Hf1. }
    assert (Hst2 : st2 = linked st1 mid sid2 (enrolled sid1 mf) (mentored mid sf2)).
    { subst st2. rewrite !serve_cons, Hst1. cbn [serve foldl].
      unfold handle; cbn [route].
      rewrite (assign_found st1 _ _ mid sid2 (enrolled sid1 mf) sf2), Hf2; try done.
      - apply linked_mentor.
      - subst st1. by rewrite linked_other_student. }
    unfold handle; cbn [route].
    rewrite (getMentorStudents_cast _ _ _ Hm).
    assert (Hroster : mentors st2 !! mid = Some (enrolled sid2 (enrolled sid1 mf))).
    { rewrite Hst2. apply linked_mentor. }
    rewrite Hroster. cbn [snd]. do 2 f_equal.
    cbn [enrolled Mentor.students]. rewrite <- app_assoc.
    rewrite populate_students_app. f_equal.
    assert (H1 : students st2 !! sid1 = Some (mentored mid sf1)).
    { rewrite Hst2, linked_other_student by done. subst st1. apply linked_student. }
    assert (H2 : students st2 !! sid2 = Some (mentored mid sf2)).
    { rewrite Hst2. apply linked_student. }
    change ([sid1] ++ [sid2]) with [sid1; sid2].
    rewrite !populate_students_cons, H1, H2. reflexivity.
  - intros Hmf. unfold handle; cbn [route].
    by rewrite (getMentorStudents_cast _ _ _ Hm), Hmf.
Qed.

Lemma getMentorStudents_pure st mentorId :
  (handle (GetMentorStudents mentorId) st).1 = st.
Proof.
  unfold handle; cbn [route].
  destruct (castObjectId mentorId) as [mid |] eqn:Hm.
  - rewrite (getMentorStudents_cast _ _ _ Hm). by destruct (mentors st !! mid).
  - by destruct (getMentorStudents_malformed st mentorId Hm) as [d ->].
Qed.

Lemma getPreviousMentor_pure st studentId :
  (handle (GetPreviousMentor studentId) st).1 = st.
Proof.
  unfold handle; cbn [route].
  destruct (castObjectId studentId) as [sid |] eqn:Hs.
  - rewrite (getPreviousMentor_cast _ _ _ Hs). by destruct (students st !! sid).
  - by destruct (getPreviousMentor_malformed st studentId Hs) as [d ->].
Qed.

(** Only a reassignment of the student writes its [previousMentor]. *)
Lemma handle_keeps_previousMentor req st sid sf :
  students st !! sid = Some sf → reassigns sid req = false →
  ∃ sf', students (handle req st).1 !! sid = Some sf'
         ∧ Student.previousMentor sf' = Student.previousMentor sf.
Proof.
  intros Hsf Hreq.
  destruct req as [| | | gen body | gen body | m s | s m | m | s].
  - eauto.
  - eauto.
  - eauto.
  - unfold handle; cbn [route]. rewrite createMentor_spec.
    destruct (Mentor_new gen body) as [mentor |]; [| eauto].
    destruct (mentors st !! Mentor._id mentor); eauto.
  - unfold handle; cbn [route]. rewrite createStudent_spec.
    destruct (Student_new gen body) as [student |]; [| eauto].
    destruct (students st !! Student._id student) eqn:Hfree; [eauto |].
    cbn [fst students]. rewrite lookup_insert_ne by congruence. eauto.
  - destruct (assign_store_cases st m s)
      as [-> | (mid & sid0 & mf & sf0 & _ & _ & _ & Hsf0 & _ & ->)]; [eauto |].
    destruct (decide (sid0 = sid)) as [-> | Hne].
    + rewrite linked_student. rewrite Hsf in Hsf0. injection Hsf0 as <-. eauto.
    + rewrite linked_other_student by done. eauto.
  - destruct (reassign_store_cases st s m)
      as [-> | (mid & sid0 & mf & sf0 & _ & Hs & _ & _ & ->)]; [eauto |].
    cbn [reassigns] in Hreq. apply bool_decide_eq_false in Hreq.
    rewrite linked_other_student by congruence. eauto.
  - rewrite getMentorStudents_pure. eauto.
  - rewrite getPreviousMentor_pure. eauto.
Qed.

Lemma serve_keeps_previousMentor reqs : ∀ st sid sf,
  students st !! sid = Some sf → forallb (λ req, negb (reassigns sid req)) reqs = true →
  ∃ sf', students (serve reqs st) !! sid = Some sf'
         ∧ Student.previousMentor sf' = Student.previousMentor sf.
Proof.
  induction reqs as [| req reqs IH]; intros st sid sf Hsf Hreqs.
  - eauto.
  - cbn [forallb] in Hreqs. apply andb_prop in Hreqs as [Hreq Hreqs].
    apply negb_true_iff in Hreq.
    destruct (handle_keeps_previousMentor req st sid sf Hsf Hreq) as (sf1 & Hsf1 & Hp1).
    destruct (IH _ sid sf1 Hsf1 Hreqs) as (sf2 & Hsf2 & Hp2).
    rewrite serve_cons. exists sf2. split; [exact Hsf2 | congruence].
Qed.

(** C7: for a student id that resolves, the query answers 200: with the
    mentor document that [previousMentor] references, or with an empty body
    when [previousMentor] is unset, which is the case of a student for as
    long as no request reassigns them.  The answer is 404 only when the
    student id does not resolve. *)
Theorem previous_mentor_query st studentId sid sf :
  castObjectId studentId = Some sid → students st !! sid = Some sf →
  (∃ body, handle (GetPreviousMentor studentId) st = (st, Send 200 body)
     ∧ (∀ M mf, Student.previousMentor sf = Some M → mentors st !! M = Some mf →
          body = BMentor (Mentor.Doc M mf))
     ∧ (Student.previousMentor sf = None → body = BEmpty))
  ∧ (Student.previousMentor sf = None →
     ∀ reqs, forallb (λ req, negb (reassigns sid req)) reqs = true →
       (handle (GetPreviousMentor studentId) (serve reqs st)).2 = Send 200 BEmpty)
  ∧ (∀ studentId' st',
       status (handle (GetPreviousMentor studentId') st').2 = 404 →
       ∃ sid', castObjectId studentId' = Some sid' ∧ students st' !! sid' = None).
Proof.
  intros Hs Hsf. split; [| split].
  - eexists. unfold handle; cbn [route].
    rewrite (getPreviousMentor_cast _ _ _ Hs), Hsf.
    split; [reflexivity |]. split.
    + intros M mf -> HM. unfold populate_previousMentor. cbn. by rewrite HM.
    + by intros ->.
  - intros Hnone reqs Hreqs.
    destruct (serve_keeps_previousMentor reqs st sid sf Hsf Hreqs) as (sf' & Hsf' & Hp).
    unfold handle; cbn [route].
    rewrite (getPreviousMentor_cast _ _ _ Hs), Hsf', Hp, Hnone. reflexivity.
  - intros s' st'. unfold handle; cbn [route].
    destruct (castObjectId s') as [sid' |] eqn:Hs'.
    + rewrite (getPreviousMentor_cast _ _ _ Hs').
      destruct (students st' !! sid') eqn:Hsf'; cbn; [discriminate |].
      intros _. by exists sid'.
    + destruct (getPreviousMentor_malformed st' s' Hs') as [d ->]. discriminate.
Qed.

(** ** Creation *)

Lemma Mentor_new_Some gen b d :
  Mentor_new gen b = Some d →
  Mentor.name d = mb_name b
  ∧ match mb_id b with
    | None => gen = Some (Mentor._id d)
    | Some s => castObjectId s = Some (Mentor._id d)
    end
  ∧ match mb_students b with
    | None => Mentor.students d = []
    | Some l => mapM castObjectId l = Some (Mentor.students d)
    end.
Proof.
  unfold Mentor_new. destruct b as [[s |] n [l |]]; cbn.
  - destruct (castObjectId s); cbn; [| discriminate].
    destruct (mapM castObjectId l); cbn; [| discriminate].
    by intros [= <-].
  - destruct (castObjectId s); cbn; [| discriminate]. by intros [= <-].
  - destruct gen; cbn; [| discriminate].
    destruct (mapM castObjectId l); cbn; [| discriminate]. by intros [= <-].
  - destruct gen; cbn; [| discriminate]. by intros [= <-].
Qed.

Lemma Student_new_Some gen b d :
  Student_new gen b = Some d →
  Student.name d = sb_name b
  ∧ match sb_id b with
    | None => gen = Some (Student._id d)
    | Some s => castObjectId s = Some (Student._id d)
    end
  ∧ match sb_mentor b with
    | None => Student.mentor d = None
    | Some s => is_Some (Student.mentor d) ∧ castObjectId s = Student.mentor d
    end
  ∧ match sb_previousMentor b with
    | None => Student.previousMentor d = None
    | Some s => is_Some (Student.previousMentor d)
                ∧ castObjectId s = Student.previousMentor d
    end.
Proof.
  unfold Student_new, cast_path. destruct b as [i n m q]; cbn.
  destruct i as [s |]; cbn;
    [destruct (castObjectId s); cbn; [| discriminate]
    | destruct gen; cbn; [| discriminate]];
    (destruct m as [sm |]; cbn; [destruct (castObjectId sm); cbn; [| discriminate] |]);
    (destruct q as [sq |]; cbn; [destruct (castObjectId sq); cbn; [| discriminate] |]);
    intros [= <-]; cbn; eauto 10.
Qed.

(** C8 (as amended): a create that succeeds answers 201 with the document
    it inserted, under an id that was not in the collection before; any
    other create is answered 500 and leaves the store unchanged.  The
    inserted document is the body merged onto the defaults: its id is the
    [_id] of the body or, without one, the id the [_id] default yields, and
    its relationship fields are those of the body, empty or absent when the
    body does not supply them.  A body without relationship fields whose
    document id is determined and unused does succeed. *)
Theorem create_merges_body_onto_defaults st gen mbody sbody :
  let st1 := (handle (PostMentor gen mbody) st).1 in
  let r1 := (handle (PostMentor gen mbody) st).2 in
  let st2 := (handle (PostStudent gen sbody) st).1 in
  let r2 := (handle (PostStudent gen sbody) st).2 in
  ((st1 = st ∧ status r1 = 500)
   ∨ ∃ d, r1 = Send 201 (BMentor d)
       ∧ mentors st !! Mentor._id d = None
       ∧ st1 = MkStore (<[Mentor._id d := Mentor.data d]> (mentors st)) (students st)
       ∧ Mentor.name d = mb_name mbody
       ∧ match mb_id mbody with
         | None => gen = Some (Mentor._id d)
         | Some s => castObjectId s = Some (Mentor._id d)
         end
       ∧ match mb_students mbody with
         | None => Mentor.students d = []
         | Some l => mapM castObjectId l = Some (Mentor.students d)
         end)
  ∧ ((st2 = st ∧ status r2 = 500)
     ∨ ∃ d, r2 = Send 201 (BStudent d)
         ∧ students st !! Student._id d = None
         ∧ st2 = MkStore (mentors st) (<[Student._id d := Student.data d]> (students st))
         ∧ Student.name d = sb_name sbody
         ∧ match sb_id sbody with
           | None => gen = Some (Student._id d)
           | Some s => castObjectId s = Some (Student._id d)
           end
         ∧ match sb_mentor sbody with
           | None => Student.mentor d = None
           | Some s => is_Some (Student.mentor d) ∧ castObjectId s = Student.mentor d
           end
         ∧ match sb_previousMentor sbody with
           | None => Student.previousMentor d = None
           | Some s => is_Some (Student.previousMentor d)
                       ∧ castObjectId s = Student.previousMentor d
           end)
  ∧ (∀ id,
       match mb_id mbody with
       | None => gen = Some id
       | Some s => castObjectId s = Some id
       end →
       mb_students mbody = None → mentors st !! id = None →
       r1 = Send 201 (BMentor (Mentor.Doc id (Mentor.Fields (mb_name mbody) []))))
  ∧ (∀ id,
       match sb_id sbody with
       | None => gen = Some id
       | Some s => castObjectId s = Some id
       end →
       sb_mentor sbody = None → sb_previousMentor sbody = None →
       students st !! id = None →
       r2 = Send 201 (BStudent (Student.Doc id (Student.Fields (sb_name sbody) None None)))).
Proof.
  unfold handle; cbn [route]. rewrite createMentor_spec, createStudent_spec.
  split; [| split; [| split]].
  - destruct (Mentor_new gen mbody) as [d |] eqn:Hnew; [| by left].
    destruct (mentors st !! Mentor._id d) eqn:Hfree; [by left |].
    right. exists d. destruct (Mentor_new_Some _ _ _ Hnew) as (? & ? & ?). auto 10.
  - destruct (Student_new gen sbody) as [d |] eqn:Hnew; [| by left].
    destruct (students st !! Student._id d) eqn:Hfree; [by left |].
    right. exists d. destruct (Student_new_Some _ _ _ Hnew) as (? & ? & ? & ?).
    auto 10.
  - intros id Hid Hstuds Hfree. unfold Mentor_new.
    assert (Hfrom : from_option castObjectId gen (mb_id mbody) = Some id)
      by (destruct (mb_id mbody); cbn; done).
    rewrite Hfrom, Hstuds. cbn. by rewrite Hfree.
  - intros id Hid Hm Hp Hfree. unfold Student_new.
    assert (Hfrom : from_option castObjectId gen (sb_id sbody) = Some id)
      by (destruct (sb_id sbody); cbn; done).
    rewrite Hfrom, Hm, Hp. cbn. by rewrite Hfree.
Qed.

End Properties.

(** * The application as a whole *)

Section Coverage.
Context `{!ObjectIdCast}.

(** ** Outcome of each handler: final store and status *)

Lemma mentored_rementored mid sf :
  Student.mentor sf = None → mentored mid sf = rementored mid sf.
Proof. intros Hfree. unfold mentored, rementored. by rewrite Hfree. Qed.

Lemma assign_outcome st mentorId studentId :
  (∃ r, handle (PostAssign mentorId studentId) st = (st, r)
        ∧ (status r = 400 ∨ status r = 404 ∨ status r = 500))
  ∨ (∃ mid sid mf sf,
       castObjectId mentorId = Some mid ∧ castObjectId studentId = Some sid
       ∧ mentors st !! mid = Some mf ∧ students st !! sid = Some sf
       ∧ Student.mentor sf = None
       ∧ handle (PostAssign mentorId studentId) st
         = (linked st mid sid mf (mentored mid sf),
            Send 200 (BMentor (Mentor.Doc mid (enrolled sid mf))))).
Proof.
  unfold handle; cbn [route].
  destruct (castObjectId mentorId) as [mid |] eqn:Hm; cycle 1.
  { left. destruct (assign_malformed st mentorId studentId) as [d ->]; eauto. }
  destruct (castObjectId studentId) as [sid |] eqn:Hs; cycle 1.
  { left. destruct (assign_malformed st mentorId studentId) as [d ->]; eauto. }
  destruct (mentors st !! mid) as [mf |] eqn:Hmf; cycle 1.
  { left. rewrite (assign_missing _ _ _ _ _ Hm Hs); eauto. }
  destruct (students st !! sid) as [sf |] eqn:Hsf; cycle 1.
  { left. rewrite (assign_missing _ _ _ _ _ Hm Hs); eauto. }
  rewrite (assign_found _ _ _ _ _ _ _ Hm Hmf Hs Hsf).
  destruct (Student.mentor sf) eqn:Hcur; cbn [truthy]; [left; eauto |].
  right. exists mid, sid, mf, sf. auto 10.
Qed.

Lemma reassign_outcome st studentId mentorId :
  (∃ r, handle (PutReassign studentId mentorId) st = (st, r)
        ∧ (status r = 404 ∨ status r = 500))
  ∨ (∃ mid sid mf sf,
       castObjectId mentorId = Some mid ∧ castObjectId studentId = Some sid
       ∧ mentors st !! mid = Some mf ∧ students st !! sid = Some sf
       ∧ handle (PutReassign studentId mentorId) st
         = (linked st mid sid mf (rementored mid sf),
            Send 200 (BStudent (Student.Doc sid (rementored mid sf))))).
Proof.
  unfold handle; cbn [route].
  destruct (castObjectId studentId) as [sid |] eqn:Hs; cycle 1.
  { left. destruct (reassign_malformed st studentId mentorId) as [d ->]; eauto. }
  destruct (castObjectId mentorId) as [mid |] eqn:Hm; cycle 1.
  { left. destruct (reassign_malformed st studentId mentorId) as [d ->]; eauto. }
  destruct (students st !! sid) as [sf |] eqn:Hsf; cycle 1.
  { left. rewrite (reassign_missing _ _ _ _ _ Hs Hm); eauto. }
  destruct (mentors st !! mid) as [mf |] eqn:Hmf; cycle 1.
  { left. rewrite (reassign_missing _ _ _ _ _ Hs Hm); eauto. }
  rewrite (reassign_found _ _ _ _ _ _ _ Hs Hsf Hm Hmf).
  right. exists mid, sid, mf, sf. auto 10.
Qed.

Lemma get_outcome req st :
  is_get req = true →
  ∃ r, handle req st = (st, r)
       ∧ (status r = 200 ∨ status r = 404 ∨ status r = 500).
Proof.
  destruct req as [| | | gen body | gen body | m s | s m | m | s];
    try discriminate; intros _; unfold handle; cbn [route].
  - eexists. split; [reflexivity | by left].
  - eexists. split; [reflexivity | by left].
  - eexists. split; [reflexivity | by left].
  - destruct (castObjectId m) as [mid |] eqn:Hm.
    + rewrite (getMentorStudents_cast _ _ _ Hm).
      destruct (mentors st !! mid); eauto.
    + destruct (getMentorStudents_malformed st m Hm) as [d ->]. eauto.
  - destruct (castObjectId s) as [sid |] eqn:Hs.
    + rewrite (getPreviousMentor_cast _ _ _ Hs).
      destruct (students st !! sid); eauto.
    + destruct (getPreviousMentor_malformed st s Hs) as [d ->]. eauto.
Qed.

(** Every request falls under one of four outcomes. *)
Lemma handle_outcome req st :
  (∃ r, handle req st = (st, r) ∧ status r ≠ 201
        ∧ (status r = 200 → is_get req = true))
  ∨ (∃ mid sid mf sf r,
       mentors st !! mid = Some mf ∧ students st !! sid = Some sf
       ∧ handle req st = (linked st mid sid mf (rementored mid sf), r)
       ∧ status r = 200 ∧ is_get req = false)
  ∨ (∃ gen body d,
       req = PostMentor gen body ∧ Mentor_new gen body = Some d
       ∧ mentors st !! Mentor._id d = None
       ∧ handle req st
         = (MkStore (<[Mentor._id d := Mentor.data d]> (mentors st)) (students st),
            Send 201 (BMentor d)))
  ∨ (∃ gen body d,
       req = PostStudent gen body ∧ Student_new gen body = Some d
       ∧ students st !! Student._id d = None
       ∧ handle req st
         = (MkStore (mentors st) (<[Student._id d := Student.data d]> (students st)),
            Send 201 (BStudent d))).
Proof.
  destruct req as [| | | gen body | gen body | m s | s m | m | s].
  1-3, 8-9:
    left; edestruct get_outcome as (r & Hr & Hst); [| exists r; split; [exact Hr |]];
    [reflexivity | split; [destruct Hst as [-> | [-> | ->]]; discriminate | done]].
  - unfold handle; cbn [route]. rewrite createMentor_spec.
    destruct (Mentor_new gen body) as [d |] eqn:Hnew;
      [| left; eexists; split; [reflexivity | split; cbn; discriminate]].
    destruct (mentors st !! Mentor._id d) eqn:Hfree;
      [left; eexists; split; [reflexivity | split; cbn; discriminate] |].
    right; right; left. exists gen, body, d. auto.
  - unfold handle; cbn [route]. rewrite createStudent_spec.
    destruct (Student_new gen body) as [d |] eqn:Hnew;
      [| left; eexists; split; [reflexivity | split; cbn; discriminate]].
    destruct (students st !! Student._id d) eqn:Hfree;
      [left; eexists; split; [reflexivity | split; cbn; discriminate] |].
    right; right; right. exists gen, body, d. auto.
  - destruct (assign_outcome st m s)
      as [(r & Hr & Hst) | (mid & sid & mf & sf & _ & _ & Hmf & Hsf & Hfree & Hr)].
    + left. exists r. split; [exact Hr |].
      split; destruct Hst as [-> | [-> | ->]]; discriminate.
    + right; left. rewrite (mentored_rementored mid sf Hfree) in Hr.
      exists mid, sid, mf, sf. eexists. eauto 10.
  - destruct (reassign_outcome st s m)
      as [(r & Hr & Hst) | (mid & sid & mf & sf & _ & _ & Hmf & Hsf & Hr)].
    + left. exists r. split; [exact Hr |].
      split; destruct Hst as [-> | ->]; discriminate.
    + right; left. exists mid, sid, mf, sf. eexists. eauto 10.
Qed.

(** ** Reads, failures and status codes *)

(** X1: a GET request never changes the store, whether it succeeds or
    not, and its status is 200, 404 or 500. *)
Theorem get_requests_are_read_only req st :
  is_get req = true →
  (handle req st).1 = st
  ∧ (status (handle req st).2 = 200 ∨ status (handle req st).2 = 404
     ∨ status (handle req st).2 = 500).
Proof.
  intros Hget. destruct (get_outcome req st Hget) as (r & -> & Hst). by split.
Qed.

(** X2: a request that is not answered 200 or 201 leaves the store exactly
    as it was: every failure is detected before the first write. *)
Theorem failed_request_changes_nothing req st :
  status (handle req st).2 ≠ 200 → status (handle req st).2 ≠ 201 →
  (handle req st).1 = st.
Proof.
  intros H200 H201.
  destruct (handle_outcome req st)
    as [(r & -> & _) | [(mid & sid & mf & sf & r & _ & _ & Hr & Hst & _)
      | [(gen & body & d & _ & _ & _ & Hr) | (gen & body & d & _ & _ & _ & Hr)]]];
    [reflexivity | | |]; rewrite Hr in H200, H201; cbn in *; congruence.
Qed.

(** X3: the status codes the handler of each route can answer.  Only a
    create answers 201 and only the assignment answers 400; the landing
    page answers 200, and so do the two list routes unless their [catch]
    answers 500.  What is answered before a handler runs, such as the body
    parser's 400 for a body it cannot read, is no handler's answer. *)
Theorem status_codes_by_route req st :
  let code := status (handle req st).2 in
  match req with
  | GetRoot => code = 200
  | GetMentors | GetStudents => code = 200 ∨ code = 500
  | PostMentor _ _ | PostStudent _ _ => code = 201 ∨ code = 500
  | PostAssign _ _ => code = 200 ∨ code = 400 ∨ code = 404 ∨ code = 500
  | PutReassign _ _ | GetMentorStudents _ | GetPreviousMentor _ =>
      code = 200 ∨ code = 404 ∨ code = 500
  end.
Proof.
  destruct req as [| | | gen body | gen body | m s | s m | m | s]; cbn zeta.
  - reflexivity.
  - by left.
  - by left.
  - unfold handle; cbn [route]. rewrite createMentor_spec.
    destruct (Mentor_new gen body) as [d |]; [| by right].
    destruct (mentors st !! Mentor._id d); [by right | by left].
  - unfold handle; cbn [route]. rewrite createStudent_spec.
    destruct (Student_new gen body) as [d |]; [| by right].
    destruct (students st !! Student._id d); [by right | by left].
  - destruct (assign_outcome st m s)
      as [(r & -> & Hst) | (mid & sid & mf & sf & _ & _ & _ & _ & _ & ->)];
      [by right | by left].
  - destruct (reassign_outcome st s m)
      as [(r & -> & Hst) | (mid & sid & mf & sf & _ & _ & _ & _ & ->)];
      [by right | by left].
  - by destruct (get_outcome (GetMentorStudents m) st eq_refl) as (r & -> & Hst).
  - by destruct (get_outcome (GetPreviousMentor s) st eq_refl) as (r & -> & Hst).
Qed.

(** X4: documents are only ever added one at a time, by a create that
    answers 201: such a create grows its own collection by one and leaves
    the other at its size; any other request, and any create answered 500,
    leaves both sizes as they were. *)
Theorem only_creates_add_documents req st :
  let st' := (handle req st).1 in
  let created := Nat.eqb (status (handle req st).2) 201 in
  size (mentors st')
    = match req with
      | PostMentor _ _ => if created then S (size (mentors st)) else size (mentors st)
      | _ => size (mentors st)
      end
  ∧ size (students st')
    = match req with
      | PostStudent _ _ => if created then S (size (students st)) else size (students st)
      | _ => size (students st)
      end.
Proof.
  cbn zeta.
  destruct (handle_outcome req st)
    as [(r & Hr & H201 & _) | [(mid & sid & mf & sf & r & Hmf & Hsf & Hr & Hst & Hget)
      | [(gen & body & d & -> & _ & Hfree & Hr) | (gen & body & d & -> & _ & Hfree & Hr)]]];
    rewrite Hr; cbn [fst snd status mentors students].
  - apply Nat.eqb_neq in H201. rewrite H201. by destruct req.
  - unfold linked; cbn [mentors students].
    rewrite (map_size_insert_Some mid _ (mentors st)) by eauto.
    rewrite (map_size_insert_Some sid _ (students st)) by eauto.
    destruct req; try done; cbn in Hst; rewrite Hst; done.
  - split; [| reflexivity]. cbn. by apply map_size_insert_None.
  - split; [reflexivity |]. cbn. by apply map_size_insert_None.
Qed.

(** ** Creation never disturbs what is stored *)

(** X5: a create never changes a document that is already stored, in
    either collection, and touches only its own collection.  In particular
    a body that carries the [_id] of an existing document is answered 500
    and inserts nothing. *)
Theorem create_never_overwrites st gen mbody sbody :
  let st1 := (handle (PostMentor gen mbody) st).1 in
  let st2 := (handle (PostStudent gen sbody) st).1 in
  (∀ mid mf, mentors st !! mid = Some mf → mentors st1 !! mid = Some mf)
  ∧ students st1 = students st
  ∧ (∀ sid sf, students st !! sid = Some sf → students st2 !! sid = Some sf)
  ∧ mentors st2 = mentors st
  ∧ (∀ s id, mb_id mbody = Some s → castObjectId s = Some id →
       is_Some (mentors st !! id) →
       st1 = st ∧ status (handle (PostMentor gen mbody) st).2 = 500)
  ∧ (∀ s id, sb_id sbody = Some s → castObjectId s = Some id →
       is_Some (students st !! id) →
       st2 = st ∧ status (handle (PostStudent gen sbody) st).2 = 500).
Proof.
  cbn zeta. unfold handle; cbn [route].
  rewrite createMentor_spec, createStudent_spec.
  split; [| split; [| split; [| split; [| split]]]].
  - intros mid mf Hmf.
    destruct (Mentor_new gen mbody) as [d |]; [| done].
    destruct (mentors st !! Mentor._id d) eqn:Hfree; [done |].
    cbn. rewrite lookup_insert_ne by congruence. done.
  - destruct (Mentor_new gen mbody) as [d |]; [| done].
    by destruct (mentors st !! Mentor._id d).
  - intros sid sf Hsf.
    destruct (Student_new gen sbody) as [d |]; [| done].
    destruct (students st !! Student._id d) eqn:Hfree; [done |].
    cbn. rewrite lookup_insert_ne by congruence. done.
  - destruct (Student_new gen sbody) as [d |]; [| done].
    by destruct (students st !! Student._id d).
  - intros s id Hid Hcast [mf Hmf].
    destruct (Mentor_new gen mbody) as [d |] eqn:Hnew; [| done].
    destruct (Mentor_new_Some _ _ _ Hnew) as (_ & Hd & _).
    rewrite Hid, Hcast in Hd. injection Hd as <-. by rewrite Hmf.
  - intros s id Hid Hcast [sf Hsf].
    destruct (Student_new gen sbody) as [d |] eqn:Hnew; [| done].
    destruct (Student_new_Some _ _ _ Hnew) as (_ & Hd & _).
    rewrite Hid, Hcast in Hd. injection Hd as <-. by rewrite Hsf.
Qed.

Lemma Mentor_new_rejects gen b :
  (∃ s, mb_id b = Some s ∧ castObjectId s = None)
  ∨ (∃ l s, mb_students b = Some l ∧ s ∈ l ∧ castObjectId s = None) →
  Mentor_new gen b = None.
Proof.
  unfold Mentor_new. intros [(s & Hid & Hs) | (l & s & Hl & Hin & Hs)].
  - by rewrite Hid; cbn; rewrite Hs.
  - rewrite Hl. cbn.
    assert (Hnone : mapM castObjectId l = None).
    { apply mapM_None, Exists_exists. eauto. }
    rewrite Hnone. by destruct (from_option castObjectId gen (mb_id b)).
Qed.

Lemma Student_new_rejects gen b s :
  sb_id b = Some s ∨ sb_mentor b = Some s ∨ sb_previousMentor b = Some s →
  castObjectId s = None →
  Student_new gen b = None.
Proof.
  unfold Student_new, cast_path. intros Hfield Hs.
  destruct Hfield as [Hf | [Hf | Hf]]; rewrite Hf; cbn; rewrite ?Hs; cbn.
  - done.
  - by destruct (from_option castObjectId gen (sb_id b)).
  - destruct (from_option castObjectId gen (sb_id b)); [| done]. cbn.
    by destruct (sb_mentor b) as [m |]; cbn; [destruct (castObjectId m) |].
Qed.

(** X6: a create whose body carries a malformed identifier, as [_id] or in
    a relationship field, is answered 500 and inserts nothing; one bad
    entry in [students] is enough. *)
Theorem create_rejects_malformed_ids st gen mbody sbody s :
  castObjectId s = None →
  (mb_id mbody = Some s ∨ (∃ l, mb_students mbody = Some l ∧ s ∈ l) →
     (handle (PostMentor gen mbody) st).1 = st
     ∧ status (handle (PostMentor gen mbody) st).2 = 500)
  ∧ (sb_id sbody = Some s ∨ sb_mentor sbody = Some s
     ∨ sb_previousMentor sbody = Some s →
     (handle (PostStudent gen sbody) st).1 = st
     ∧ status (handle (PostStudent gen sbody) st).2 = 500).
Proof.
  intros Hs. unfold handle; cbn [route].
  rewrite createMentor_spec, createStudent_spec. split.
  - intros Hbad. rewrite Mentor_new_rejects; [done |].
    destruct Hbad as [Hid | (l & Hl & Hin)]; [left | right]; eauto.
  - intros Hbad. by rewrite (Student_new_rejects gen sbody s Hbad Hs).
Qed.

(** ** What no sequence of requests undoes *)

Lemma handle_mentor_grows req st mid mf :
  mentors st !! mid = Some mf →
  ∃ mf', mentors (handle req st).1 !! mid = Some mf'
         ∧ Mentor.name mf' = Mentor.name mf
         ∧ Mentor.students mf `prefix_of` Mentor.students mf'.
Proof.
  intros Hmf.
  destruct (handle_outcome req st)
    as [(r & -> & _) | [(m & s & mf0 & sf0 & r & Hm & _ & -> & _)
      | [(gen & body & d & _ & _ & Hfree & ->) | (gen & body & d & _ & _ & _ & ->)]]];
    cbn [fst].
  - eauto.
  - destruct (decide (m = mid)) as [-> | Hne].
    + rewrite linked_mentor. rewrite Hmf in Hm. injection Hm as <-.
      eexists. split; [reflexivity |]. split; [reflexivity | by apply prefix_app_r].
    + rewrite linked_other_mentor by done. eauto.
  - cbn [mentors]. rewrite lookup_insert_ne by congruence. eauto.
  - cbn [mentors]. eauto.
Qed.

Lemma handle_student_grows req st sid sf :
  students st !! sid = Some sf →
  ∃ sf', students (handle req st).1 !! sid = Some sf'
         ∧ Student.name sf' = Student.name sf
         ∧ (is_Some (Student.mentor sf) → is_Some (Student.mentor sf'))
         ∧ (is_Some (Student.previousMentor sf) →
              is_Some (Student.previousMentor sf')).
Proof.
  intros Hsf.
  destruct (handle_outcome req st)
    as [(r & -> & _) | [(m & s & mf0 & sf0 & r & _ & Hs & -> & _)
      | [(gen & body & d & _ & _ & _ & ->) | (gen & body & d & _ & _ & Hfree & ->)]]];
    cbn [fst].
  - eauto.
  - destruct (decide (s = sid)) as [-> | Hne].
    + rewrite linked_student. rewrite Hsf in Hs. injection Hs as <-.
      eexists. split; [reflexivity |]. split; [reflexivity |].
      split; [eauto |]. cbn. by destruct (Student.mentor sf).
    + rewrite linked_other_student by done. eauto.
  - cbn [students]. eauto.
  - cbn [students]. rewrite lookup_insert_ne by congruence. eauto.
Qed.

Lemma serve_mentor_grows reqs : ∀ st mid mf,
  mentors st !! mid = Some mf →
  ∃ mf', mentors (serve reqs st) !! mid = Some mf'
         ∧ Mentor.name mf' = Mentor.name mf
         ∧ Mentor.students mf `prefix_of` Mentor.students mf'.
Proof.
  induction reqs as [| req reqs IH]; intros st mid mf Hmf.
  - exists mf. by split.
  - rewrite serve_cons.
    destruct (handle_mentor_grows req st mid mf Hmf) as (mf1 & Hmf1 & Hn1 & Hp1).
    destruct (IH _ mid mf1 Hmf1) as (mf2 & Hmf2 & Hn2 & Hp2).
    exists mf2. split; [exact Hmf2 |]. split; [congruence | by etrans].
Qed.

Lemma serve_student_grows reqs : ∀ st sid sf,
  students st !! sid = Some sf →
  ∃ sf', students (serve reqs st) !! sid = Some sf'
         ∧ Student.name sf' = Student.name sf
         ∧ (is_Some (Student.mentor sf) → is_Some (Student.mentor sf'))
         ∧ (is_Some (Student.previousMentor sf) →
              is_Some (Student.previousMentor sf')).
Proof.
  induction reqs as [| req reqs IH]; intros st sid sf Hsf.
  - exists sf. by split.
  - rewrite serve_cons.
    destruct (handle_student_grows req st sid sf Hsf) as (sf1 & Hsf1 & Hn1 & Hm1 & Hp1).
    destruct (IH _ sid sf1 Hsf1) as (sf2 & Hsf2 & Hn2 & Hm2 & Hp2).
    exists sf2. split; [exact Hsf2 |]. split; [congruence |]. split; auto.
Qed.

(** X7: nothing is ever deleted or cleared.  Whatever requests are served,
    a stored mentor stays stored under its id with the same name and a
    roster that extends the old one, and a stored student stays stored
    with the same name; a [mentor] or [previousMentor] that is set stays
    set. *)
Theorem documents_persist reqs st :
  (∀ mid mf, mentors st !! mid = Some mf →
     ∃ mf', mentors (serve reqs st) !! mid = Some mf'
            ∧ Mentor.name mf' = Mentor.name mf
            ∧ Mentor.students mf `prefix_of` Mentor.students mf')
  ∧ (∀ sid sf, students st !! sid = Some sf →
       ∃ sf', students (serve reqs st) !! sid = Some sf'
              ∧ Student.name sf' = Student.name sf
              ∧ (is_Some (Student.mentor sf) → is_Some (Student.mentor sf'))
              ∧ (is_Some (Student.previousMentor sf) →
                   is_Some (Student.previousMentor sf'))).
Proof.
  split; [apply serve_mentor_grows | apply serve_student_grows].
Qed.

(** X8: once a student has a mentor, no later assignment of that student
    succeeds, whatever requests come in between: the assignment changes
    nothing and is never answered 200, and it is answered 400 whenever its
    mentor id resolves at the time of the assignment. *)
Theorem assigned_student_is_never_assigned_again
    st sid sf reqs mentorId studentId :
  students st !! sid = Some sf → is_Some (Student.mentor sf) →
  castObjectId studentId = Some sid →
  let st' := serve reqs st in
  (handle (PostAssign mentorId studentId) st').1 = st'
  ∧ status (handle (PostAssign mentorId studentId) st').2 ≠ 200
  ∧ (∀ mid, castObjectId mentorId = Some mid → is_Some (mentors st' !! mid) →
       status (handle (PostAssign mentorId studentId) st').2 = 400).
Proof.
  intros Hsf Hcur Hs st'.
  destruct (serve_student_grows reqs st sid sf Hsf) as (sf' & Hsf' & _ & Hkeep & _).
  fold st' in Hsf'. specialize (Hkeep Hcur). destruct Hkeep as [cur Hcur'].
  split; [| split].
  - destruct (assign_outcome st' mentorId studentId)
      as [(r & -> & _) | (mid & sid0 & mf & sf0 & _ & Hs0 & _ & Hsf0 & Hfree & _)];
      [done |].
    congruence.
  - destruct (assign_outcome st' mentorId studentId)
      as [(r & -> & Hst) | (mid & sid0 & mf & sf0 & _ & Hs0 & _ & Hsf0 & Hfree & _)].
    + cbn. destruct Hst as [-> | [-> | ->]]; discriminate.
    + congruence.
  - intros mid Hm [mf' Hmf'].
    unfold handle; cbn [route].
    by rewrite (assign_found _ _ _ _ _ _ _ Hm Hmf' Hs Hsf'), Hcur'.
Qed.

(** X9: for a student without a mentor, and for a student id that does
    not resolve, PUT reassign does to the store exactly what POST assign
    does, and answers with the same status. *)
Theorem reassign_of_unassigned_is_assign st studentId mentorId :
  (∀ sid sf, castObjectId studentId = Some sid → students st !! sid = Some sf →
     Student.mentor sf = None) →
  (handle (PutReassign studentId mentorId) st).1
    = (handle (PostAssign mentorId studentId) st).1
  ∧ status (handle (PutReassign studentId mentorId) st).2
    = status (handle (PostAssign mentorId studentId) st).2.
Proof.
  intros Hfree. unfold handle; cbn [route].
  destruct (castObjectId studentId) as [sid |] eqn:Hs; cycle 1.
  { destruct (reassign_malformed st studentId mentorId (or_introl Hs)) as [d ->].
    by destruct (assign_malformed st mentorId studentId (or_intror Hs)) as [d' ->]. }
  destruct (castObjectId mentorId) as [mid |] eqn:Hm; cycle 1.
  { destruct (reassign_malformed st studentId mentorId (or_intror Hm)) as [d ->].
    by destruct (assign_malformed st mentorId studentId (or_introl Hm)) as [d' ->]. }
  destruct (students st !! sid) as [sf |] eqn:Hsf; cycle 1.
  { rewrite (reassign_missing _ _ _ _ _ Hs Hm (or_introl Hsf)).
    by rewrite (assign_missing _ _ _ _ _ Hm Hs (or_intror Hsf)). }
  destruct (mentors st !! mid) as [mf |] eqn:Hmf; cycle 1.
  { rewrite (reassign_missing _ _ _ _ _ Hs Hm (or_intror Hmf)).
    by rewrite (assign_missing _ _ _ _ _ Hm Hs (or_introl Hmf)). }
  rewrite (reassign_found _ _ _ _ _ _ _ Hs Hsf Hm Hmf).
  rewrite (assign_found _ _ _ _ _ _ _ Hm Hmf Hs Hsf).
  rewrite (Hfree sid sf eq_refl Hsf). cbn [truthy fst snd status].
  by rewrite (mentored_rementored mid sf (Hfree sid sf eq_refl Hsf)).
Qed.

(** ** References stay valid *)

Lemma linked_roster_keeps st mid sid mf sf m mf0 x :
  mentors st !! mid = Some mf →
  mentors st !! m = Some mf0 → x ∈ Mentor.students mf0 →
  ∃ mf', mentors (linked st mid sid mf sf) !! m = Some mf'
         ∧ x ∈ Mentor.students mf'.
Proof.
  intros Hmf Hmf0 Hin. destruct (decide (mid = m)) as [-> | Hne].
  - rewrite linked_mentor. eexists. split; [reflexivity |].
    rewrite Hmf in Hmf0. injection Hmf0 as <-.
    cbn. apply elem_of_app. by left.
  - rewrite linked_other_mentor by done. eauto.
Qed.

Lemma linked_student_resolves st mid sid mf sf x :
  is_Some (students st !! x) → is_Some (students (linked st mid sid mf sf) !! x).
Proof.
  intros Hx. destruct (decide (sid = x)) as [-> | Hne].
  - rewrite linked_student. eauto.
  - by rewrite linked_other_student.
Qed.

Lemma handle_keeps_well_linked req st :
  well_linked st → plain req = true → well_linked (handle req st).1.
Proof.
  intros [Hup Hdown] Hplain.
  destruct (handle_outcome req st)
    as [(r & -> & _) | [(mid & sid & mf & sf & r & Hmf & Hsf & -> & _)
      | [(gen & body & d & -> & Hnew & Hfree & ->)
      | (gen & body & d & -> & Hnew & Hfree & ->)]]];
    cbn [fst].
  - by split.
  - split.
    + intros sid' sf' m Hsf' Href.
      destruct (decide (sid = sid')) as [<- | Hne].
      * rewrite linked_student in Hsf'. injection Hsf' as <-.
        destruct Href as [Hcur | Hprev].
        -- cbn in Hcur. injection Hcur as <-.
           rewrite linked_mentor. eexists. split; [reflexivity |].
           cbn. apply elem_of_app. right. by apply list_elem_of_singleton.
        -- assert (Hold : Student.mentor sf = Some m
                          ∨ Student.previousMentor sf = Some m).
           { cbn in Hprev. destruct (Student.mentor sf); [by left | by right]. }
           destruct (Hup sid sf m Hsf Hold) as (mf0 & Hmf0 & Hin).
           by apply (linked_roster_keeps st mid sid mf _ m mf0).
      * rewrite linked_other_student in Hsf' by done.
        destruct (Hup sid' sf' m Hsf' Href) as (mf0 & Hmf0 & Hin).
        by apply (linked_roster_keeps st mid sid mf _ m mf0).
    + intros mid' mf' x Hmf' Hin.
      destruct (decide (mid = mid')) as [<- | Hne].
      * rewrite linked_mentor in Hmf'. injection Hmf' as <-.
        cbn in Hin. apply elem_of_app in Hin as [Hin | Hin].
        -- apply linked_student_resolves. by apply (Hdown mid mf).
        -- apply list_elem_of_singleton in Hin as ->. rewrite linked_student. eauto.
      * rewrite linked_other_mentor in Hmf' by done.
        apply linked_student_resolves. by apply (Hdown mid' mf').
  - destruct (Mentor_new_Some _ _ _ Hnew) as (_ & _ & Hroster).
    cbn [plain] in Hplain. destruct (mb_students body); [discriminate |].
    split; cbn [mentors students].
    + intros sid' sf' m Hsf' Href.
      destruct (Hup sid' sf' m Hsf' Href) as (mf0 & Hmf0 & Hin).
      exists mf0. rewrite lookup_insert_ne by congruence. by split.
    + intros mid' mf' x Hmf' Hin.
      destruct (decide (Mentor._id d = mid')) as [<- | Hne].
      * rewrite lookup_insert_eq in Hmf'. injection Hmf' as <-.
        rewrite Hroster in Hin. by apply elem_of_nil in Hin.
      * rewrite lookup_insert_ne in Hmf' by done. by apply (Hdown mid' mf').
  - destruct (Student_new_Some _ _ _ Hnew) as (_ & _ & Hcur & Hprev).
    cbn [plain] in Hplain. apply andb_prop in Hplain as [Hp1 Hp2].
    destruct (sb_mentor body); [discriminate |].
    destruct (sb_previousMentor body); [discriminate |].
    split; cbn [mentors students].
    + intros sid' sf' m Hsf' Href.
      destruct (decide (Student._id d = sid')) as [<- | Hne].
      * rewrite lookup_insert_eq in Hsf'. injection Hsf' as <-.
        destruct Href; congruence.
      * rewrite lookup_insert_ne in Hsf' by done. by apply (Hup sid' sf' m).
    + intros mid' mf' x Hmf' Hin.
      destruct (decide (Student._id d = x)) as [<- | Hne].
      * rewrite lookup_insert_eq. eauto.
      * rewrite lookup_insert_ne by done. by apply (Hdown mid' mf').
Qed.

Lemma serve_keeps_well_linked reqs : ∀ st,
  well_linked st → forallb plain reqs = true → well_linked (serve reqs st).
Proof.
  induction reqs as [| req reqs IH]; intros st Hwl Hplain; [done |].
  cbn [forallb] in Hplain. apply andb_prop in Hplain as [Hreq Hreqs].
  rewrite serve_cons. apply IH; [| done]. by apply handle_keeps_well_linked.
Qed.

Lemma empty_store_well_linked : well_linked empty_store.
Proof.
  split.
  - intros sid sf m Hsf. cbn in Hsf. by rewrite lookup_empty in Hsf.
  - intros mid mf x Hmf. cbn in Hmf. by rewrite lookup_empty in Hmf.
Qed.

(** X10: in every store reached from the empty one by requests whose
    create bodies carry no relationship fields, the references point at
    something: the mentor a student names as [mentor] or [previousMentor]
    exists and has the student on its roster, and every roster entry is
    the id of a stored student. *)
Theorem reachable_stores_are_well_linked reqs :
  forallb plain reqs = true →
  let st := serve reqs empty_store in
  (∀ sid sf m,
     students st !! sid = Some sf →
     Student.mentor sf = Some m ∨ Student.previousMentor sf = Some m →
     ∃ mf, mentors st !! m = Some mf ∧ sid ∈ Mentor.students mf)
  ∧ (∀ mid mf sid,
       mentors st !! mid = Some mf → sid ∈ Mentor.students mf →
       is_Some (students st !! sid)).
Proof.
  intros Hplain. apply (serve_keeps_well_linked reqs empty_store); [| done].
  apply empty_store_well_linked.
Qed.

(** X11: in such a store the students-for-mentor query drops nothing: its
    answer has one document per roster entry, in roster order, each the
    stored document of that id. *)
Theorem reachable_roster_is_fully_populated reqs mentorId mid mf :
  forallb plain reqs = true →
  let st := serve reqs empty_store in
  castObjectId mentorId = Some mid → mentors st !! mid = Some mf →
  ∃ l, handle (GetMentorStudents mentorId) st = (st, Send 200 (BStudents l))
       ∧ length l = length (Mentor.students mf)
       ∧ Forall2 (λ i d, Student._id d = i
                         ∧ students st !! i = Some (Student.data d))
           (Mentor.students mf) l.
Proof.
  intros Hplain st Hm Hmf.
  destruct (serve_keeps_well_linked reqs empty_store empty_store_well_linked Hplain)
    as [_ Hdown].
  fold st in Hdown.
  assert (Hall : Forall2 (λ i d, Student._id d = i
                                 ∧ students st !! i = Some (Student.data d))
                   (Mentor.students mf) (populate_students st (Mentor.students mf))).
  { apply populate_students_resolved, Forall_forall.
    intros x Hx. by apply (Hdown mid mf). }
  exists (populate_students st (Mentor.students mf)).
  split; [| split; [| exact Hall]].
  - unfold handle; cbn [route]. by rewrite (getMentorStudents_cast _ _ _ Hm), Hmf.
  - symmetry. by apply (Forall2_length _ _ _ Hall).
Qed.

(** X12: in such a store a student whose [previousMentor] is set gets
    that mentor's document from the previous-mentor query, and the
    document still lists the student on its roster. *)
Theorem reachable_previous_mentor_still_lists_student reqs studentId sid sf P :
  forallb plain reqs = true →
  let st := serve reqs empty_store in
  castObjectId studentId = Some sid → students st !! sid = Some sf →
  Student.previousMentor sf = Some P →
  ∃ mf, handle (GetPreviousMentor studentId) st
          = (st, Send 200 (BMentor (Mentor.Doc P mf)))
        ∧ sid ∈ Mentor.students mf.
Proof.
  intros Hplain st Hs Hsf Hprev.
  destruct (serve_keeps_well_linked reqs empty_store empty_store_well_linked Hplain)
    as [Hup _].
  fold st in Hup.
  destruct (Hup sid sf P Hsf (or_intror Hprev)) as (mf & Hmf & Hin).
  exists mf. split; [| exact Hin].
  unfold handle; cbn [route].
  rewrite (getPreviousMentor_cast _ _ _ Hs), Hsf, Hprev.
  unfold populate_previousMentor. cbn. by rewrite Hmf.
Qed.

(** ** Where the bidirectional invariant survives *)

Lemma mentor_consistent_intro st mid :
  (∀ mf x, mentors st !! mid = Some mf → x ∈ Mentor.students mf →
     ∃ sf, students st !! x = Some sf ∧ Student.mentor sf = Some mid) →
  mentor_consistent st mid = true.
Proof.
  intros Hall. unfold mentor_consistent.
  destruct (mentors st !! mid) as [mf |] eqn:Hmf; [| reflexivity].
  apply forallb_forall. intros x Hx. apply list_elem_of_In in Hx.
  destruct (Hall mf x eq_refl Hx) as (sf & Hsf & Hcur).
  unfold student_of. rewrite Hsf. by apply bool_decide_eq_true.
Qed.

(** Linking student [sid] to mentor [mid] keeps the invariant for every
    mentor that is the target or was not the student's mentor. *)
Lemma linked_keeps_consistent st mid sid mf sf sf' M :
  mentors st !! mid = Some mf → students st !! sid = Some sf →
  Student.mentor sf' = Some mid →
  (Student.mentor sf = Some M → M = mid) →
  mentor_consistent st M = true →
  mentor_consistent (linked st mid sid mf sf') M = true.
Proof.
  intros Hmf Hsf Hnew Hformer Hc.
  apply mentor_consistent_intro. intros mf' x Hmf' Hx.
  destruct (decide (x = sid)) as [-> | Hxne].
  - rewrite linked_student. exists sf'. split; [reflexivity |].
    destruct (decide (mid = M)) as [<- | Hne]; [exact Hnew |].
    rewrite linked_other_mentor in Hmf' by done.
    destruct (mentor_consistent_elim st M mf' sid Hc Hmf' Hx) as (sf0 & Hsf0 & Hcur).
    rewrite Hsf in Hsf0. injection Hsf0 as <-.
    by rewrite (Hformer Hcur) in Hne.
  - rewrite linked_other_student by done.
    destruct (decide (mid = M)) as [<- | Hne].
    + rewrite linked_mentor in Hmf'. injection Hmf' as <-.
      cbn in Hx. apply elem_of_app in Hx as [Hx | Hx].
      * by apply (mentor_consistent_elim st mid mf x).
      * by apply list_elem_of_singleton in Hx.
    + rewrite linked_other_mentor in Hmf' by done.
      by apply (mentor_consistent_elim st M mf' x).
Qed.

(** X13: an assignment never breaks the bidirectional invariant: a mentor
    whose roster is consistent before POST assign has a consistent roster
    after it, whether the request succeeds or not. *)
Theorem assign_preserves_consistency st mentorId studentId M :
  mentor_consistent st M = true →
  mentor_consistent (handle (PostAssign mentorId studentId) st).1 M = true.
Proof.
  intros Hc.
  destruct (assign_outcome st mentorId studentId)
    as [(r & -> & _) | (mid & sid & mf & sf & _ & _ & Hmf & Hsf & Hfree & ->)];
    [exact Hc |].
  apply (linked_keeps_consistent st mid sid mf sf); try done.
  rewrite Hfree. discriminate.
Qed.

(** X14: a reassignment can break the invariant for one mentor only, the
    one the student is taken from.  For the target, and for any mentor
    that is not the student's current one, a consistent roster stays
    consistent. *)
Theorem reassign_breaks_only_the_former_mentor st studentId mentorId M :
  mentor_consistent st M = true →
  (∀ sid sf, castObjectId studentId = Some sid → students st !! sid = Some sf →
     Student.mentor sf = Some M → castObjectId mentorId = Some M) →
  mentor_consistent (handle (PutReassign studentId mentorId) st).1 M = true.
Proof.
  intros Hc Hformer.
  destruct (reassign_outcome st studentId mentorId)
    as [(r & -> & _) | (mid & sid & mf & sf & Hm & Hs & Hmf & Hsf & ->)];
    [exact Hc |].
  apply (linked_keeps_consistent st mid sid mf sf); try done.
  intros Hcur. specialize (Hformer sid sf Hs Hsf Hcur). congruence.
Qed.

(** ** The list routes *)

Lemma Mentor_find_spec st :
  ∃ l, handle GetMentors st = (st, Send 200 (BMentors l))
       ∧ NoDup l ∧ length l = size (mentors st)
       ∧ ∀ d, d ∈ l ↔ mentors st !! Mentor._id d = Some (Mentor.data d).
Proof.
  eexists. split; [reflexivity |]. split; [| split].
  - apply NoDup_fmap_2_strong; [| apply NoDup_map_to_list].
    intros [i a] [j b] _ _ Heq. cbn in Heq. by injection Heq as -> ->.
  - by rewrite length_fmap, length_map_to_list.
  - intros [i a]. rewrite list_elem_of_fmap. cbn. split.
    + intros ([j b] & Heq & Hin). cbn in Heq. injection Heq as -> ->.
      by apply elem_of_map_to_list.
    + intros Hl. exists (i, a). split; [reflexivity |]. by apply elem_of_map_to_list.
Qed.

Lemma Student_find_spec st :
  ∃ l, handle GetStudents st = (st, Send 200 (BStudents l))
       ∧ NoDup l ∧ length l = size (students st)
       ∧ ∀ d, d ∈ l ↔ students st !! Student._id d = Some (Student.data d).
Proof.
  eexists. split; [reflexivity |]. split; [| split].
  - apply NoDup_fmap_2_strong; [| apply NoDup_map_to_list].
    intros [i a] [j b] _ _ Heq. cbn in Heq. by injection Heq as -> ->.
  - by rewrite length_fmap, length_map_to_list.
  - intros [i a]. rewrite list_elem_of_fmap. cbn. split.
    + intros ([j b] & Heq & Hin). cbn in Heq. injection Heq as -> ->.
      by apply elem_of_map_to_list.
    + intros Hl. exists (i, a). split; [reflexivity |]. by apply elem_of_map_to_list.
Qed.

(** X15: GET /mentors and GET /students answer 200 with every stored
    document of the collection exactly once, and nothing else. *)
Theorem list_routes_return_the_collection st :
  (∃ l, handle GetMentors st = (st, Send 200 (BMentors l))
        ∧ NoDup l ∧ length l = size (mentors st)
        ∧ ∀ d, d ∈ l ↔ mentors st !! Mentor._id d = Some (Mentor.data d))
  ∧ (∃ l, handle GetStudents st = (st, Send 200 (BStudents l))
          ∧ NoDup l ∧ length l = size (students st)
          ∧ ∀ d, d ∈ l ↔ students st !! Student._id d = Some (Student.data d)).
Proof. split; [apply Mentor_find_spec | apply Student_find_spec]. Qed.

Lemma createMentor_201 st gen body d :
  (handle (PostMentor gen body) st).2 = Send 201 (BMentor d) →
  mentors st !! Mentor._id d = None
  ∧ (handle (PostMentor gen body) st).1
    = MkStore (<[Mentor._id d := Mentor.data d]> (mentors st)) (students st).
Proof.
  unfold handle; cbn [route]. rewrite createMentor_spec.
  destruct (Mentor_new gen body) as [d' |]; [| discriminate].
  destruct (mentors st !! Mentor._id d') eqn:Hfree; [discriminate |].
  by intros [= <-].
Qed.

Lemma createStudent_201 st gen body d :
  (handle (PostStudent gen body) st).2 = Send 201 (BStudent d) →
  students st !! Student._id d = None
  ∧ (handle (PostStudent gen body) st).1
    = MkStore (mentors st) (<[Student._id d := Student.data d]> (students st)).
Proof.
  unfold handle; cbn [route]. rewrite createStudent_spec.
  destruct (Student_new gen body) as [d' |]; [| discriminate].
  destruct (students st !! Student._id d') eqn:Hfree; [discriminate |].
  by intros [= <-].
Qed.

(** X16: what a create answers with 201 is on the next listing of its
    collection, together with everything that was listed before; the
    listing is one longer. *)
Theorem created_document_is_listed st gen mbody sbody :
  (∀ d, (handle (PostMentor gen mbody) st).2 = Send 201 (BMentor d) →
     ∃ before after,
       (handle GetMentors st).2 = Send 200 (BMentors before)
       ∧ (handle GetMentors (handle (PostMentor gen mbody) st).1).2
         = Send 200 (BMentors after)
       ∧ d ∈ after ∧ (d ∉ before) ∧ (before ⊆ after)
       ∧ length after = S (length before))
  ∧ (∀ d, (handle (PostStudent gen sbody) st).2 = Send 201 (BStudent d) →
       ∃ before after,
         (handle GetStudents st).2 = Send 200 (BStudents before)
         ∧ (handle GetStudents (handle (PostStudent gen sbody) st).1).2
           = Send 200 (BStudents after)
         ∧ d ∈ after ∧ (d ∉ before) ∧ (before ⊆ after)
         ∧ length after = S (length before)).
Proof.
  split; intros d Hsent.
  - destruct (createMentor_201 _ _ _ _ Hsent) as [Hfree Hst'].
    destruct (Mentor_find_spec st) as (before & Hb & _ & Hlb & Hinb).
    destruct (Mentor_find_spec (handle (PostMentor gen mbody) st).1)
      as (after & Ha & _ & Hla & Hina).
    exists before, after. rewrite Hb, Ha. do 2 (split; [reflexivity |]).
    rewrite Hst' in Hla, Hina. cbn [mentors] in Hla, Hina.
    split; [apply Hina, lookup_insert_eq |].
    split; [intros Hin%Hinb; congruence |].
    split.
    + intros x Hx%Hinb. apply Hina. rewrite lookup_insert_ne by congruence. done.
    + rewrite Hla, Hlb. by apply map_size_insert_None.
  - destruct (createStudent_201 _ _ _ _ Hsent) as [Hfree Hst'].
    destruct (Student_find_spec st) as (before & Hb & _ & Hlb & Hinb).
    destruct (Student_find_spec (handle (PostStudent gen sbody) st).1)
      as (after & Ha & _ & Hla & Hina).
    exists before, after. rewrite Hb, Ha. do 2 (split; [reflexivity |]).
    rewrite Hst' in Hla, Hina. cbn [students] in Hla, Hina.
    split; [apply Hina, lookup_insert_eq |].
    split; [intros Hin%Hinb; congruence |].
    split.
    + intros x Hx%Hinb. apply Hina. rewrite lookup_insert_ne by congruence. done.
    + rewrite Hla, Hlb. by apply map_size_insert_None.
Qed.

(** ** Precedence of the checks *)

(** X18: which status the two relationship routes answer, in the order the
    handlers decide it: 500 if the first id looked up is malformed, or the
    second one is; otherwise 404 if either document is missing; otherwise,
    for POST assign only, 400 if the student has a mentor; otherwise 200.
    A missing mentor thus hides an already assigned student, and PUT
    reassign has no 400 case at all. *)
Theorem relationship_status_precedence st mentorId studentId :
  status (handle (PostAssign mentorId studentId) st).2
    = match castObjectId mentorId, castObjectId studentId with
      | Some mid, Some sid =>
          match mentors st !! mid, students st !! sid with
          | Some _, Some sf => if truthy (Student.mentor sf) then 400 else 200
          | _, _ => 404
          end
      | _, _ => 500
      end
  ∧ status (handle (PutReassign studentId mentorId) st).2
    = match castObjectId mentorId, castObjectId studentId with
      | Some mid, Some sid =>
          match mentors st !! mid, students st !! sid with
          | Some _, Some _ => 200
          | _, _ => 404
          end
      | _, _ => 500
      end.
Proof.
  unfold handle; cbn [route]. split.
  - destruct (castObjectId mentorId) as [mid |] eqn:Hm; cycle 1.
    { by destruct (assign_malformed st mentorId studentId (or_introl Hm)) as [d ->]. }
    destruct (castObjectId studentId) as [sid |] eqn:Hs; cycle 1.
    { by destruct (assign_malformed st mentorId studentId (or_intror Hs)) as [d ->]. }
    destruct (mentors st !! mid) as [mf |] eqn:Hmf; cycle 1.
    { by rewrite (assign_missing _ _ _ _ _ Hm Hs (or_introl Hmf)). }
    destruct (students st !! sid) as [sf |] eqn:Hsf; cycle 1.
    { by rewrite (assign_missing _ _ _ _ _ Hm Hs (or_intror Hsf)). }
    rewrite (assign_found _ _ _ _ _ _ _ Hm Hmf Hs Hsf).
    by destruct (truthy (Student.mentor sf)).
  - destruct (castObjectId mentorId) as [mid |] eqn:Hm; cycle 1.
    { by destruct (reassign_malformed st studentId mentorId (or_intror Hm)) as [d ->]. }
    destruct (castObjectId studentId) as [sid |] eqn:Hs; cycle 1.
    { by destruct (reassign_malformed st studentId mentorId (or_introl Hs)) as [d ->]. }
    destruct (mentors st !! mid) as [mf |] eqn:Hmf; cycle 1.
    { rewrite (reassign_missing _ _ _ _ _ Hs Hm (or_intror Hmf)).
      by destruct (students st !! sid). }
    destruct (students st !! sid) as [sf |] eqn:Hsf; cycle 1.
    { by rewrite (reassign_missing _ _ _ _ _ Hs Hm (or_introl Hsf)). }
    by rewrite (reassign_found _ _ _ _ _ _ _ Hs Hsf Hm Hmf).
Qed.

(** ** Without reassignment the invariant holds *)

Lemma handle_keeps_all_consistent req st :
  (∀ M, mentor_consistent st M = true) →
  plain req = true → is_reassign req = false →
  ∀ M, mentor_consistent (handle req st).1 M = true.
Proof.
  intros Hall Hplain Hput M.
  destruct req as [| | | gen body | gen body | m s | s m | m | s];
    try discriminate.
  1-3: apply Hall.
  - unfold handle; cbn [route]. rewrite createMentor_spec.
    destruct (Mentor_new gen body) as [d |] eqn:Hnew; [| apply Hall].
    destruct (mentors st !! Mentor._id d) eqn:Hfree; [apply Hall |].
    destruct (Mentor_new_Some _ _ _ Hnew) as (_ & _ & Hroster).
    cbn [plain] in Hplain. destruct (mb_students body); [discriminate |].
    apply mentor_consistent_intro. cbn [fst mentors students].
    intros mf x Hmf Hx.
    destruct (decide (Mentor._id d = M)) as [<- | Hne].
    + rewrite lookup_insert_eq in Hmf. injection Hmf as <-.
      rewrite Hroster in Hx. by apply elem_of_nil in Hx.
    + rewrite lookup_insert_ne in Hmf by done.
      by apply (mentor_consistent_elim st M mf x).
  - unfold handle; cbn [route]. rewrite createStudent_spec.
    destruct (Student_new gen body) as [d |] eqn:Hnew; [| apply Hall].
    destruct (students st !! Student._id d) eqn:Hfree; [apply Hall |].
    apply mentor_consistent_intro. cbn [fst mentors students].
    intros mf x Hmf Hx.
    destruct (mentor_consistent_elim st M mf x (Hall M) Hmf Hx) as (sf & Hsf & Hcur).
    exists sf. rewrite lookup_insert_ne by congruence. by split.
  - destruct (assign_outcome st m s)
      as [(r & -> & _) | (mid & sid & mf & sf & _ & _ & Hmf & Hsf & Hfree & ->)];
      [apply Hall |].
    apply (linked_keeps_consistent st mid sid mf sf); try done.
    rewrite Hfree. discriminate.
  - by rewrite getMentorStudents_pure.
  - by rewrite getPreviousMentor_pure.
Qed.

(** X19: as long as nobody uses PUT reassign and the requests are served
    one after the other, each handler running to its end before the next
    one starts, the bidirectional invariant holds: in every store so
    reached from the empty one by plain creates, assignments and reads,
    every mentor's roster is consistent.  ([serve] is that schedule; two
    assignments of one student that overlap are outside it.) *)
Theorem without_reassignment_rosters_are_consistent reqs :
  forallb (λ req, plain req && negb (is_reassign req)) reqs = true →
  ∀ M, mentor_consistent (serve reqs empty_store) M = true.
Proof.
  assert (Hgen : ∀ st, (∀ M, mentor_consistent st M = true) →
            forallb (λ req, plain req && negb (is_reassign req)) reqs = true →
            ∀ M, mentor_consistent (serve reqs st) M = true).
  { induction reqs as [| req reqs IH]; intros st Hall Hreqs; [exact Hall |].
    cbn [forallb] in Hreqs. apply andb_prop in Hreqs as [Hreq Hreqs].
    apply andb_prop in Hreq as [Hplain Hput]. apply negb_true_iff in Hput.
    rewrite serve_cons. apply IH; [| exact Hreqs].
    by apply handle_keeps_all_consistent. }
  intros Hreqs. apply Hgen; [| exact Hreqs].
  intros M. reflexivity.
Qed.

(** ** The revision with the explicit [_id] default *)




End Coverage.

(** * [generateId] *)

Lemma length_substring s : ∀ n m,
  String.length (String.substring n m s) = Nat.min m (String.length s - n).
Proof.
  induction s as [| c s IH]; intros n m.
  - destruct n, m; cbn; lia.
  - destruct n as [| n].
    + destruct m as [| m]; cbn; [reflexivity |]. rewrite IH. lia.
    + cbn. apply IH.
Qed.

Lemma length_toUpperCase s : String.length (toUpperCase s) = String.length s.
Proof. induction s as [| c s IH]; cbn; congruence. Qed.

Lemma toUpperCase_char_alnum c :
  is_base36 c = true → is_upper_alnum (toUpperCase_char c) = true.
Proof.
  destruct c as [[] [] [] [] [] [] [] []]; vm_compute; congruence.
Qed.

Lemma toUpperCase_alnum s :
  string_forallb is_base36 s = true →
  string_forallb is_upper_alnum (toUpperCase s) = true.
Proof.
  induction s as [| c s IH]; cbn; [done |].
  intros [Hc Hs]%andb_prop. by rewrite (toUpperCase_char_alnum c Hc), IH.
Qed.

Lemma toLowerCase_toUpperCase_char c :
  is_base36 c = true → toLowerCase_char (toUpperCase_char c) = c.
Proof.
  destruct c as [[] [] [] [] [] [] [] []]; vm_compute; congruence.
Qed.

Lemma toLowerCase_toUpperCase s :
  string_forallb is_base36 s = true → toLowerCase (toUpperCase s) = s.
Proof.
  induction s as [| c s IH]; cbn; [done |].
  intros [Hc Hs]%andb_prop. by rewrite (toLowerCase_toUpperCase_char c Hc), IH.
Qed.

(** X17: the id [generateId] makes from a rendering is the upper-case form
    of the characters of the rendering from position 2 on, at most ten of
    them.  The window [substr 2 10] holds, position by position, the
    characters 2 to 11 of the rendering and nothing else, so the length of
    the id is the smaller of 10 and the length of the rendering less 2: a
    draw with a short base-36 expansion gives an id of fewer than ten
    characters and a draw of zero gives the empty id.  When the window
    holds base-36 digits, the id consists of digits and upper-case letters
    and lower-casing it gives the window back. *)
Theorem generateId_shape rendering :
  String.length (generateId rendering)
    = Nat.min 10 (String.length rendering - 2)
  ∧ (∀ i, String.get i (substr 2 10 rendering)
          = if Nat.ltb i 10 then String.get (i + 2) rendering else None)
  ∧ (string_forallb is_base36 (substr 2 10 rendering) = true →
     string_forallb is_upper_alnum (generateId rendering) = true
     ∧ toLowerCase (generateId rendering) = substr 2 10 rendering).
Proof.
  unfold generateId, substr. split; [| split].
  - by rewrite length_toUpperCase, length_substring.
  - intros i. destruct (Nat.ltb_spec i 10) as [Hlt | Hge].
    + by apply substring_correct1.
    + by apply substring_correct2.
  - intros Hdigits. split.
    + by apply toUpperCase_alnum.
    + by apply toLowerCase_toUpperCase.
Qed.

(** * The scenario, worked through the theorems *)

#[local] Existing Instance literal_cast.

Lemma assign_ada_lin :
  ∃ st' mf' sf',
    handle (PostAssign ada lin) campus
      = (st', Send 200 (BMentor (Mentor.Doc 0xa1 mf')))
    ∧ mentors st' !! 0xa1%N = Some mf'
    ∧ students st' !! 0x51%N = Some sf'
    ∧ Student.mentor sf' = Some 0xa1%N
    ∧ 0x51%N ∈ Mentor.students mf'
    ∧ Mentor.students mf' = [] ++ [0x51%N]
    ∧ Mentor.name mf' = Some "Ada"%string
    ∧ Student.name sf' = Some "Lin"%string
    ∧ Student.previousMentor sf' = None.
Proof.
  apply (assign_links_student_and_mentor campus ada lin 0xa1 0x51
           (Mentor.Fields (Some "Ada"%string) [])
           (Student.Fields (Some "Lin"%string) None None));
    vm_compute; reflexivity.
Defined.

Lemma assign_lin_twice :
  (is_Some (Some 0xa1%N) →
     handle (PostAssign grace lin) lin_assigned
       = (lin_assigned, Send 400 (BText "Student already has a mentor")))
  ∧ (let st1 := (handle (PostAssign ada lin) campus).1 in
     handle (PostAssign grace lin) st1
       = (st1, Send 400 (BText "Student already has a mentor"))).
Proof.
  split.
  - apply (assign_refuses_assigned_student lin_assigned grace ada lin 0xa2 0xa1 0x51
             (Mentor.Fields (Some "Grace"%string) [])
             (Mentor.Fields (Some "Ada"%string) [0x51%N])
             (Student.Fields (Some "Lin"%string) (Some 0xa1%N) None));
      vm_compute; reflexivity.
  - apply (assign_refuses_assigned_student campus ada grace lin 0xa1 0xa2 0x51
             (Mentor.Fields (Some "Ada"%string) [])
             (Mentor.Fields (Some "Grace"%string) [])
             (Student.Fields (Some "Lin"%string) None None));
      vm_compute; reflexivity.
Defined.

Lemma reassign_lin_to_grace_then_mary :
  ∃ st1 sf1 st2 sf2,
    handle (PutReassign lin grace) lin_assigned
      = (st1, Send 200 (BStudent (Student.Doc 0x51 sf1)))
    ∧ students st1 !! 0x51%N = Some sf1
    ∧ Student.mentor sf1 = Some 0xa2%N
    ∧ (∀ M1, Some 0xa1%N = Some M1 → Student.previousMentor sf1 = Some M1)
    ∧ (Some 0xa1%N = None → Student.previousMentor sf1 = None)
    ∧ handle (PutReassign lin mary) st1
        = (st2, Send 200 (BStudent (Student.Doc 0x51 sf2)))
    ∧ students st2 !! 0x51%N = Some sf2
    ∧ Student.mentor sf2 = Some 0xa3%N
    ∧ Student.previousMentor sf2 = Some 0xa2%N.
Proof.
  apply (reassign_keeps_one_previous_mentor lin_assigned lin 0x51
           (Student.Fields (Some "Lin"%string) (Some 0xa1%N) None)
           grace 0xa2 (Mentor.Fields (Some "Grace"%string) [])
           mary 0xa3 (Mentor.Fields (Some "Mary"%string) []));
    vm_compute; reflexivity.
Defined.

Lemma reassign_lin_to_ada_again :
  let roster := [0x51%N] in
  let st1 := (handle (PutReassign lin ada) lin_assigned).1 in
  let st2 := (handle (PutReassign lin ada) st1).1 in
  Mentor.students <$> mentors st1 !! 0xa1%N = Some (roster ++ [0x51%N])
  ∧ (0x51%N ∈ roster → ¬ NoDup (roster ++ [0x51%N]))
  ∧ Mentor.students <$> mentors st2 !! 0xa1%N = Some (roster ++ [0x51%N; 0x51%N])
  ∧ ¬ NoDup (roster ++ [0x51%N; 0x51%N])
  ∧ mentors st2 !! 0xa1%N ≠ mentors st1 !! 0xa1%N.
Proof.
  apply (reassign_pushes_unconditionally lin_assigned lin ada 0x51 0xa1
           (Student.Fields (Some "Lin"%string) (Some 0xa1%N) None)
           (Mentor.Fields (Some "Ada"%string) [0x51%N]));
    vm_compute; reflexivity.
Defined.

Lemma assign_and_reassign_frame_at_campus :
  let st1 := (handle (PostAssign grace kim) lin_assigned).1 in
  let st2 := (handle (PutReassign kim grace) lin_assigned).1 in
  (∀ sid', castObjectId kim ≠ Some sid' →
     students st1 !! sid' = students lin_assigned !! sid'
     ∧ students st2 !! sid' = students lin_assigned !! sid')
  ∧ (∀ mid', castObjectId grace ≠ Some mid' →
     mentors st1 !! mid' = mentors lin_assigned !! mid'
     ∧ mentors st2 !! mid' = mentors lin_assigned !! mid').
Proof. apply (assignment_touches_two_documents lin_assigned grace kim). Defined.

Lemma ada_keeps_lin_after_reassignment :
  let st1 := (handle (PutReassign lin grace) lin_assigned).1 in
  mentors st1 !! 0xa1%N = Some (Mentor.Fields (Some "Ada"%string) [0x51%N])
  ∧ mentor_consistent st1 0xa1 = false
  ∧ ∀ reqs,
      let st2 := serve reqs st1 in
      (∃ mf1', mentors st2 !! 0xa1%N = Some mf1' ∧ 0x51%N ∈ Mentor.students mf1')
      ∧ (Student.mentor <$> students st2 !! 0x51%N ≠ Some (Some 0xa1%N) →
           mentor_consistent st2 0xa1 = false)
      ∧ mentor_consistent st2 0xa1 && mentor_consistent st2 0xa2 = false.
Proof.
  apply (reassign_leaves_stale_reference lin_assigned lin grace 0x51
           (Student.Fields (Some "Lin"%string) (Some 0xa1%N) None)
           0xa1 (Mentor.Fields (Some "Ada"%string) [0x51%N])
           0xa2 (Mentor.Fields (Some "Grace"%string) []));
    try (vm_compute; reflexivity).
  - apply list_elem_of_singleton. reflexivity.
  - discriminate.
Defined.

(** The invariant is not violated for good: reassigning Lin from Ada to
    Grace and then back to Ada leaves Ada's roster consistent again. *)
Lemma stale_reference_heals_on_return :
  ¬ (∀ (cast : ObjectIdCast) st studentId mentorId sid sf M1 mf1 M2 mf2,
       castObjectId studentId = Some sid → students st !! sid = Some sf →
       Student.mentor sf = Some M1 →
       mentors st !! M1 = Some mf1 → sid ∈ Mentor.students mf1 →
       castObjectId mentorId = Some M2 → mentors st !! M2 = Some mf2 →
       M1 ≠ M2 →
       ∀ reqs,
         mentor_consistent
           (@serve cast reqs (@handle cast (PutReassign studentId mentorId) st).1) M1
         = false).
Proof.
  intros Hclaim.
  specialize (Hclaim literal_cast lin_assigned lin grace 0x51%N
                (Student.Fields (Some "Lin"%string) (Some 0xa1%N) None)
                0xa1%N (Mentor.Fields (Some "Ada"%string) [0x51%N])
                0xa2%N (Mentor.Fields (Some "Grace"%string) [])).
  assert (Hback : mentor_consistent
            (serve [PutReassign lin ada] (handle (PutReassign lin grace) lin_assigned).1)
            0xa1 = true) by (vm_compute; reflexivity).
  rewrite Hclaim in Hback; try discriminate; try (vm_compute; reflexivity).
  apply list_elem_of_singleton. reflexivity.
Qed.

Lemma unresolved_ids_at_campus :
  (∃ r, handle (PostAssign ada "000000000000000000000099") campus = (campus, r)
        ∧ status r = 404)
  ∧ (∃ r, handle (PutReassign "S1" ada) campus = (campus, r) ∧ status r = 500).
Proof.
  split.
  - destruct (unresolved_id_changes_nothing
                (PostAssign ada "000000000000000000000099") campus)
      as (r & Hr & Hstatus); [vm_compute; reflexivity |].
    exists r. split; [exact Hr | exact Hstatus].
  - destruct (unresolved_id_changes_nothing (PutReassign "S1" ada) campus)
      as (r & Hr & Hstatus); [vm_compute; reflexivity |].
    exists r. split; [exact Hr | exact Hstatus].
Defined.

(** An id that is not an ObjectId literal does not resolve either, and is
    answered 500. *)
Lemma malformed_id_is_answered_500 :
  ¬ (∀ (cast : ObjectIdCast) req st,
       existsb (λ l, negb (is_found l)) (@referenced cast st req) = true →
       status (@handle cast req st).2 = 404).
Proof.
  intros Hclaim.
  specialize (Hclaim literal_cast (PostAssign ada "S1") campus).
  assert (Hgot : status (handle (PostAssign ada "S1") campus).2 = 500)
    by (vm_compute; reflexivity).
  rewrite Hclaim in Hgot; [discriminate | vm_compute; reflexivity].
Qed.

(** After Lin and Kim have been assigned to Ada, her students are returned
    as two full documents; a mentor id nobody has is answered 404. *)
Lemma ada_students_after_two_assignments :
  (handle (GetMentorStudents ada)
     (serve [PostAssign ada lin; PostAssign ada kim] campus)).2
    = Send 200 (BStudents
        [ Student.Doc 0x51 (Student.Fields (Some "Lin"%string) (Some 0xa1%N) None);
          Student.Doc 0x52 (Student.Fields (Some "Kim"%string) (Some 0xa1%N) None) ])
  ∧ handle (GetMentorStudents ada) campus = (campus, Send 200 (BStudents []))
  ∧ handle (GetMentorStudents "000000000000000000000099") campus
    = (campus, Send 404 (BText "Mentor not found")).
Proof.
  destruct (mentor_students_are_populated campus ada 0xa1) as (Hroster & Htwo & _);
    [vm_compute; reflexivity |].
  destruct (mentor_students_are_populated campus "000000000000000000000099" 0x99)
    as (_ & _ & Hmissing); [vm_compute; reflexivity |].
  split; [| split].
  - apply (Htwo (Mentor.Fields (Some "Ada"%string) []) lin kim 0x51%N 0x52%N
             (Student.Fields (Some "Lin"%string) None None)
             (Student.Fields (Some "Kim"%string) None None));
      try (vm_compute; reflexivity).
    discriminate.
  - apply (Hroster (Mentor.Fields (Some "Ada"%string) [])).
    vm_compute; reflexivity.
  - apply Hmissing. vm_compute; reflexivity.
Defined.

(** A mentor id that is not an ObjectId literal does not resolve, yet the
    answer is 500, not 404. *)
Lemma malformed_mentor_id_is_not_answered_404 :
  ¬ (∀ (cast : ObjectIdCast) st mentorId,
       (∀ mid, castObjectId mentorId = Some mid → mentors st !! mid = None) →
       status (@handle cast (GetMentorStudents mentorId) st).2 = 404).
Proof.
  intros Hclaim.
  specialize (Hclaim literal_cast campus "M1"%string).
  assert (Hgot : status (handle (GetMentorStudents "M1") campus).2 = 500)
    by (vm_compute; reflexivity).
  rewrite Hclaim in Hgot; [discriminate |].
  intros mid Hcast. vm_compute in Hcast. discriminate.
Qed.

(** Lin's previous mentor after the reassignment is Ada's document; Kim,
    never reassigned, has none, whatever else is requested meanwhile. *)
Lemma previous_mentor_of_lin_and_kim :
  handle (GetPreviousMentor lin) lin_reassigned
    = (lin_reassigned,
       Send 200 (BMentor (Mentor.Doc 0xa1 (Mentor.Fields (Some "Ada"%string) [0x51%N]))))
  ∧ handle (GetPreviousMentor kim) lin_reassigned = (lin_reassigned, Send 200 BEmpty)
  ∧ (handle (GetPreviousMentor kim)
       (serve [PostAssign mary kim; PutReassign lin mary] lin_reassigned)).2
    = Send 200 BEmpty.
Proof.
  destruct (previous_mentor_query lin_reassigned lin 0x51
              (Student.Fields (Some "Lin"%string) (Some 0xa2%N) (Some 0xa1%N)))
    as ((body & Hsent & Hsome & _) & _ & _); [vm_compute; reflexivity .. |].
  destruct (previous_mentor_query lin_reassigned kim 0x52
              (Student.Fields (Some "Kim"%string) None None))
    as ((body' & Hsent' & _ & Hnone) & Hlater & _); [vm_compute; reflexivity .. |].
  split; [| split].
  - rewrite Hsent. do 2 f_equal.
    apply Hsome; vm_compute; reflexivity.
  - rewrite Hsent'. do 2 f_equal. apply Hnone. reflexivity.
  - apply Hlater; vm_compute; reflexivity.
Defined.

Lemma create_at_campus :
  let st1 := (handle (PostMentor None (mentor_with_id joan "Joan")) campus).1 in
  let r1 := (handle (PostMentor None (mentor_with_id joan "Joan")) campus).2 in
  let r2 := (handle (PostStudent None eve_with_mentors) campus).2 in
  r1 = Send 201 (BMentor (Mentor.Doc 0xa4 (Mentor.Fields (Some "Joan"%string) [])))
  ∧ mentors st1 !! 0xa4%N = Some (Mentor.Fields (Some "Joan"%string) [])
  ∧ ∃ d, r2 = Send 201 (BStudent d) ∧ castObjectId ada = Student.mentor d.
Proof.
  pose proof (create_merges_body_onto_defaults campus None
                (mentor_with_id joan "Joan") eve_with_mentors)
    as (Hm & Hs & Hdef & _).
  intros st1 r1 r2. split; [| split].
  - apply (Hdef 0xa4%N); vm_compute; reflexivity.
  - destruct Hm as [[_ Hfail] | (d & Hr & _ & Hst & _)].
    + exfalso. vm_compute in Hfail. discriminate.
    + vm_compute. reflexivity.
  - destruct Hs as [[_ Hfail] | (d & Hr & _ & _ & _ & _ & [_ Hcast] & _)].
    + exfalso. vm_compute in Hfail. discriminate.
    + exists d. split; [exact Hr | exact Hcast].
Defined.

(** A student created with a [mentor] and a [previousMentor] in the body
    is stored with both. *)
Lemma created_student_keeps_supplied_mentor :
  ¬ (∀ (cast : ObjectIdCast) gen body st d,
       (@handle cast (PostStudent gen body) st).2 = Send 201 (BStudent d) →
       Student.mentor d = None ∧ Student.previousMentor d = None).
Proof.
  intros Hclaim.
  destruct (Hclaim literal_cast None eve_with_mentors campus
              (Student.Doc 0x53
                 (Student.Fields (Some "Eve"%string) (Some 0xa1%N) (Some 0xa2%N))))
    as [Hmentor _]; [vm_compute; reflexivity | discriminate].
Qed.

(** * The rest of the application, on the scenario *)

Lemma reads_at_campus :
  (handle (GetPreviousMentor "S1") campus).1 = campus
  ∧ (status (handle (GetPreviousMentor "S1") campus).2 = 200
     ∨ status (handle (GetPreviousMentor "S1") campus).2 = 404
     ∨ status (handle (GetPreviousMentor "S1") campus).2 = 500).
Proof. apply (get_requests_are_read_only (GetPreviousMentor "S1") campus). reflexivity. Defined.

Lemma refused_assignment_changes_nothing :
  (handle (PostAssign grace lin) lin_assigned).1 = lin_assigned.
Proof.
  apply (failed_request_changes_nothing (PostAssign grace lin) lin_assigned);
    vm_compute; discriminate.
Defined.

Lemma create_over_ada :
  let st1 := (handle (PostMentor None (mentor_with_id ada "Eve")) lin_assigned).1 in
  st1 = lin_assigned
  ∧ status (handle (PostMentor None (mentor_with_id ada "Eve")) lin_assigned).2 = 500
  ∧ mentors st1 !! 0xa1%N = Some (Mentor.Fields (Some "Ada"%string) [0x51%N]).
Proof.
  destruct (create_never_overwrites lin_assigned None (mentor_with_id ada "Eve")
              (student_with_id eve "Eve")) as (Hkeep & _ & _ & _ & Hdup & _).
  destruct (Hdup ada 0xa1%N) as [Hst Hcode];
    [reflexivity | vm_compute; reflexivity | vm_compute; eauto |].
  intros st1. split; [exact Hst |]. split; [exact Hcode |].
  apply Hkeep. vm_compute. reflexivity.
Defined.

Lemma create_with_bad_roster :
  (handle (PostMentor None (mentor_with_roster joan "Joan" [lin; "S1"])) campus).1
    = campus
  ∧ status (handle (PostMentor None (mentor_with_roster joan "Joan" [lin; "S1"]))
              campus).2
    = 500.
Proof.
  destruct (create_rejects_malformed_ids campus None
              (mentor_with_roster joan "Joan" [lin; "S1"]) (student_with_id eve "Eve")
              "S1")
    as [Hmentor _]; [vm_compute; reflexivity |].
  apply Hmentor. right. exists [lin; "S1"%string]. split; [reflexivity |].
  apply list_elem_of_In. right. left. reflexivity.
Defined.

Lemma ada_and_lin_persist :
  (∃ mf', mentors (serve [PutReassign lin grace; PutReassign lin mary] lin_assigned)
            !! 0xa1%N = Some mf'
          ∧ Mentor.name mf' = Some "Ada"%string
          ∧ [0x51%N] `prefix_of` Mentor.students mf')
  ∧ (∃ sf', students (serve [PutReassign lin grace; PutReassign lin mary] lin_assigned)
              !! 0x51%N = Some sf'
            ∧ Student.name sf' = Some "Lin"%string
            ∧ is_Some (Student.mentor sf')).
Proof.
  destruct (documents_persist [PutReassign lin grace; PutReassign lin mary] lin_assigned)
    as [Hmentors Hstudents].
  split.
  - apply (Hmentors 0xa1%N (Mentor.Fields (Some "Ada"%string) [0x51%N])).
    vm_compute. reflexivity.
  - destruct (Hstudents 0x51%N (Student.Fields (Some "Lin"%string) (Some 0xa1%N) None))
      as (sf' & Hsf' & Hname & Hcur & _); [vm_compute; reflexivity |].
    exists sf'. split; [exact Hsf' |]. split; [exact Hname |]. apply Hcur. eauto.
Defined.

Lemma lin_is_never_assigned_again :
  let st' := serve [PutReassign lin grace; PostMentor None (mentor_with_id joan "Joan")]
               lin_assigned in
  (handle (PostAssign joan lin) st').1 = st'
  ∧ status (handle (PostAssign joan lin) st').2 ≠ 200
  ∧ (∀ mid, castObjectId joan = Some mid → is_Some (mentors st' !! mid) →
       status (handle (PostAssign joan lin) st').2 = 400).
Proof.
  apply (assigned_student_is_never_assigned_again lin_assigned 0x51
           (Student.Fields (Some "Lin"%string) (Some 0xa1%N) None)
           [PutReassign lin grace; PostMentor None (mentor_with_id joan "Joan")]
           joan lin);
    [vm_compute; reflexivity | vm_compute; eauto | vm_compute; reflexivity].
Defined.

Lemma reassign_kim_is_assign_kim :
  (handle (PutReassign kim grace) lin_assigned).1
    = (handle (PostAssign grace kim) lin_assigned).1
  ∧ status (handle (PutReassign kim grace) lin_assigned).2
    = status (handle (PostAssign grace kim) lin_assigned).2.
Proof.
  apply (reassign_of_unassigned_is_assign lin_assigned kim grace).
  intros sid sf Hs Hsf. vm_compute in Hs. injection Hs as <-.
  vm_compute in Hsf. injection Hsf as <-. reflexivity.
Defined.

Lemma history_is_well_linked :
  let st := serve history empty_store in
  (∀ sid sf m,
     students st !! sid = Some sf →
     Student.mentor sf = Some m ∨ Student.previousMentor sf = Some m →
     ∃ mf, mentors st !! m = Some mf ∧ sid ∈ Mentor.students mf)
  ∧ (∀ mid mf sid,
       mentors st !! mid = Some mf → sid ∈ Mentor.students mf →
       is_Some (students st !! sid)).
Proof. apply (reachable_stores_are_well_linked history). reflexivity. Defined.

Lemma grace_roster_after_history :
  let st := serve history empty_store in
  ∃ l, handle (GetMentorStudents grace) st = (st, Send 200 (BStudents l))
       ∧ length l = length [0x51%N]
       ∧ Forall2 (λ i d, Student._id d = i
                         ∧ students st !! i = Some (Student.data d))
           [0x51%N] l.
Proof.
  apply (reachable_roster_is_fully_populated history grace 0xa2
           (Mentor.Fields (Some "Grace"%string) [0x51%N]));
    vm_compute; reflexivity.
Defined.

Lemma lin_previous_mentor_after_history :
  let st := serve history empty_store in
  ∃ mf, handle (GetPreviousMentor lin) st
          = (st, Send 200 (BMentor (Mentor.Doc 0xa1 mf)))
        ∧ 0x51%N ∈ Mentor.students mf.
Proof.
  apply (reachable_previous_mentor_still_lists_student history lin 0x51
           (Student.Fields (Some "Lin"%string) (Some 0xa2%N) (Some 0xa1%N)) 0xa1);
    vm_compute; reflexivity.
Defined.

Lemma assign_kim_keeps_ada_consistent :
  mentor_consistent (handle (PostAssign ada kim) lin_assigned).1 0xa1 = true.
Proof.
  apply (assign_preserves_consistency lin_assigned ada kim 0xa1).
  vm_compute. reflexivity.
Defined.

Lemma reassign_lin_keeps_grace_consistent :
  mentor_consistent (handle (PutReassign lin grace) lin_assigned).1 0xa2 = true.
Proof.
  apply (reassign_breaks_only_the_former_mentor lin_assigned lin grace 0xa2).
  - vm_compute. reflexivity.
  - intros sid sf _ _ _. vm_compute. reflexivity.
Defined.

Lemma new_mentor_is_listed :
  ∃ before after,
    (handle GetMentors campus).2 = Send 200 (BMentors before)
    ∧ (handle GetMentors
         (handle (PostMentor None (mentor_with_id joan "Joan")) campus).1).2
      = Send 200 (BMentors after)
    ∧ Mentor.Doc 0xa4 (Mentor.Fields (Some "Joan"%string) []) ∈ after
    ∧ (Mentor.Doc 0xa4 (Mentor.Fields (Some "Joan"%string) []) ∉ before)
    ∧ (before ⊆ after)
    ∧ length after = S (length before).
Proof.
  destruct (created_document_is_listed campus None (mentor_with_id joan "Joan")
              (student_with_id eve "Eve")) as [Hmentor _].
  apply Hmentor. vm_compute. reflexivity.
Defined.

Lemma generateId_of_a_draw :
  generateId "0.4fzyo82mvyr" = "4FZYO82MVY"%string
  ∧ String.length (generateId "0.i") = 1
  ∧ string_forallb is_upper_alnum (generateId "0.4fzyo82mvyr") = true
  ∧ toLowerCase (generateId "0.4fzyo82mvyr") = "4fzyo82mvy"%string.
Proof.
  destruct (generateId_shape "0.4fzyo82mvyr") as (_ & _ & Hdigits).
  destruct (generateId_shape "0.i") as (Hlen & _).
  destruct Hdigits as [Halnum Hback]; [reflexivity |].
  split; [reflexivity |]. split; [exact Hlen |].
  split; [exact Halnum | exact Hback].
Defined.

Lemma assignments_only_are_consistent :
  mentor_consistent (serve assignments_only empty_store) 0xa1 = true.
Proof.
  apply (without_reassignment_rosters_are_consistent assignments_only).
  reflexivity.
Defined.

